(** * investor_agent.yfinance_utils: the options pipeline

    A shallow embedding of [get_options_chain] and [get_filtered_options]
    from [src/investor_agent/yfinance_utils.py], and the properties of
    the expiration selection, the per-expiration fetch, the merge, the
    strike filter and the final ordering.

    Conventions of the embedding:
    - Python strings are [string] (ASCII text); [None] is [option]'s [None].
    - A pandas [DataFrame] is the list of its rows, in positional order.
    - Finite floats are the rationals they denote ([Q]); a missing value
      of a sort column is [NaN].
    - The market-data provider (yfinance behind the shared session) is an
      arbitrary stateful collaborator: two functions over an abstract
      [World], each of which may raise.  Every request is appended to a
      log kept next to the world, so that "no provider interaction" is a
      statement about the log.
    - [ThreadPoolExecutor.map] yields its results in the order of its
      argument list; it is embedded as the in-order traversal.  Logging
      calls have no effect on the returned values and are left out. *)

From Stdlib Require Import List String Ascii Bool Arith ZArith QArith Lia Lqa.
From Stdlib Require Import Permutation Sorted.
Import ListNotations.

Local Open Scope string_scope.
Local Open Scope list_scope.
Local Open Scope nat_scope.

(* ===================================================================== *)
(** ** Calendar dates and [datetime.strptime(_, "%Y-%m-%d").date()] *)
(* ===================================================================== *)

Module Dates.

Local Open Scope Z_scope.

(** [datetime.date]: compared as the triple (year, month, day). *)
Record date : Type := mkDate { year : Z; month : Z; day : Z }.

Definition is_leap (y : Z) : bool :=
  ((y mod 4 =? 0) && negb (y mod 100 =? 0)) || (y mod 400 =? 0).

Definition days_in_month (y m : Z) : Z :=
  match m with
  | 1 | 3 | 5 | 7 | 8 | 10 | 12 => 31
  | 4 | 6 | 9 | 11 => 30
  | 2 => if is_leap y then 29 else 28
  | _ => 0
  end.

(** [date(y, m, d)] raises [ValueError] outside these bounds. *)
Definition make_date (y m d : Z) : option date :=
  if (1 <=? y) && (y <=? 9999) && (1 <=? m) && (m <=? 12)
     && (1 <=? d) && (d <=? days_in_month y m)
  then Some (mkDate y m d) else None.

(** [a <= b] on dates. *)
Definition date_leb (a b : date) : bool :=
  (year a <? year b)
  || ((year a =? year b)
      && ((month a <? month b)
          || ((month a =? month b) && (day a <=? day b)))).

Definition code (c : ascii) : Z := Z.of_N (N_of_ascii c).

(** Character classes of the regular expression that [_strptime]
    builds for the format, on ASCII text: [\d] is one of the ten digits
    0-9 there.  (On other text Python's [\d] also takes the further
    decimal digits of Unicode; statements that depend on a text being
    refused are made for ASCII text.) *)
Definition in_range (lo hi : Z) (c : ascii) : bool :=
  (lo <=? code c) && (code c <=? hi).

Definition is_digit : ascii -> bool := in_range 48 57.      (* \d    *)
Definition is_1_9 : ascii -> bool := in_range 49 57.        (* [1-9] *)
Definition is_char (k : ascii) (c : ascii) : bool := Ascii.eqb k c.

Definition digit_value (c : ascii) : Z := code c - 48.

Definition token := (Z * list ascii)%type.

(** One alternative of two characters, and one of a single character. *)
Definition two_chars (p1 p2 : ascii -> bool) (v1 : ascii -> Z)
           (l : list ascii) : option token :=
  match l with
  | c1 :: c2 :: r =>
      if p1 c1 && p2 c2 then Some (10 * v1 c1 + digit_value c2, r)
      else None
  | _ => None
  end.

Definition one_char (p : ascii -> bool) (l : list ascii) : option token :=
  match l with
  | c :: r => if p c then Some (digit_value c, r) else None
  | _ => None
  end.

Definition or_else (a b : option token) : option token :=
  match a with Some _ => a | None => b end.

Definition then_dash (t : option token) : option token :=
  match t with
  | Some (n, "-"%char :: r) => Some (n, r)
  | _ => None
  end.

(** [(?P<Y>\d\d\d\d)-] *)
Definition match_year (l : list ascii) : option token :=
  match l with
  | y1 :: y2 :: y3 :: y4 :: "-"%char :: r =>
      if is_digit y1 && is_digit y2 && is_digit y3 && is_digit y4
      then Some (1000 * digit_value y1 + 100 * digit_value y2
                 + 10 * digit_value y3 + digit_value y4, r)
      else None
  | _ => None
  end.

(** [(?P<m>1[0-2]|0[1-9]|[1-9])-]: the alternatives in order, each
    one followed by the dash (a failed dash makes the matcher try the
    next alternative). *)
Definition match_month (l : list ascii) : option token :=
  or_else (then_dash (two_chars (is_char "1") (in_range 48 50) digit_value l))
 (or_else (then_dash (two_chars (is_char "0") is_1_9 digit_value l))
          (then_dash (one_char is_1_9 l))).

(** [(?P<d>3[0-1]|[1-2]\d|0[1-9]|[1-9]| [1-9])]: the pattern ends
    here, so the first alternative that matches is the match.  A
    leading space counts for nothing in [int(" 7")]. *)
Definition match_day (l : list ascii) : option token :=
  or_else (two_chars (is_char "3") (in_range 48 49) digit_value l)
 (or_else (two_chars (in_range 49 50) is_digit digit_value l)
 (or_else (two_chars (is_char "0") is_1_9 digit_value l)
 (or_else (one_char is_1_9 l)
          (two_chars (is_char " ") is_1_9 (fun _ => 0) l)))).

(** [datetime.strptime(s, "%Y-%m-%d").date()]; [None] stands for the
    [ValueError] of a string that does not match, that leaves
    unconverted data behind, or that names no calendar day. *)
Definition strptime_ymd (s : string) : option date :=
  match match_year (list_ascii_of_string s) with
  | Some (y, r1) =>
      match match_month r1 with
      | Some (m, r2) =>
          match match_day r2 with
          | Some (d, []) => make_date y m d
          | _ => None
          end
      | None => None
      end
  | None => None
  end.

End Dates.
Export Dates.

(* ===================================================================== *)
(** ** Option rows and the pandas operations the pipeline uses *)
(* ===================================================================== *)

(** A value of a numeric column that may be missing. *)
Inductive cell : Type :=
| Num (q : Q)
| NaN.

(** One row of a chain.  [expiryDate] is the column that
    [get_filtered_options] adds; the provider's rows do not carry it. *)
Record OptionRow : Type := mkRow {
  contractSymbol : string;
  strike : Q;
  volume : cell;
  openInterest : cell;
  expiryDate : option string
}.

Definition DataFrame : Type := list OptionRow.

(** The pair that [Ticker.option_chain] returns. *)
Record Options : Type := mkOptions { calls : DataFrame; puts : DataFrame }.

Module Pandas.

(** [pd.concat(frames)], rows of the frames one after the other. *)
Definition concat (frames : list DataFrame) : DataFrame :=
  List.concat frames.

(** [chain.assign(expiryDate=expiry)]: the column is set on every row. *)
Definition set_expiryDate (expiry : string) (r : OptionRow) : OptionRow :=
  mkRow (contractSymbol r) (strike r) (volume r) (openInterest r)
        (Some expiry).

Definition assign_expiryDate (expiry : string) (df : DataFrame) : DataFrame :=
  map (set_expiryDate expiry) df.

(** [pd.Series(True, index=df.index)] *)
Definition all_true (df : DataFrame) : list bool := map (fun _ => true) df.

(** [mask &= other], position by position. *)
Fixpoint mask_and (mask other : list bool) : list bool :=
  match mask, other with
  | m :: mask', o :: other' => (m && o) :: mask_and mask' other'
  | _, _ => []
  end.

(** [df['strike'] >= bound] and [df['strike'] <= bound] *)
Definition strike_ge (bound : Q) (df : DataFrame) : list bool :=
  map (fun r => Qle_bool bound (strike r)) df.

Definition strike_le (bound : Q) (df : DataFrame) : list bool :=
  map (fun r => Qle_bool (strike r) bound) df.

(** [df[mask]] *)
Fixpoint boolean_index (df : DataFrame) (mask : list bool) : DataFrame :=
  match df, mask with
  | r :: df', m :: mask' =>
      if m then r :: boolean_index df' mask' else boolean_index df' mask'
  | _, _ => []
  end.

(** How two cells of one sort column compare: [Lt] when the first row
    goes first.  Missing values go last whatever the direction
    ([na_position='last']). *)
Definition cell_compare (ascending : bool) (x y : cell) : comparison :=
  match x, y with
  | Num p, Num q => if ascending then (p ?= q)%Q else (q ?= p)%Q
  | Num _, NaN => Lt
  | NaN, Num _ => Gt
  | NaN, NaN => Eq
  end.

(** The order of [sort_values(by, ascending)] on several columns:
    the first column decides, the next one breaks its ties.
    [row_leb keys a b = true] when [a] may stand before [b]. *)
Fixpoint row_leb (keys : list ((OptionRow -> cell) * bool))
         (a b : OptionRow) : bool :=
  match keys with
  | [] => true
  | (column, ascending) :: keys' =>
      match cell_compare ascending (column a) (column b) with
      | Lt => true
      | Gt => false
      | Eq => row_leb keys' a b
      end
  end.

Definition tied (keys : list ((OptionRow -> cell) * bool))
           (a b : OptionRow) : bool :=
  row_leb keys a b && row_leb keys b a.

(** Several sort columns are ordered by a lexicographic sort of their
    codes, which keeps rows with equal keys in their input order.  The
    embedding is the insertion sort that puts a row before the first
    row that it may precede. *)
Fixpoint insert (keys : list ((OptionRow -> cell) * bool))
         (r : OptionRow) (sorted : DataFrame) : DataFrame :=
  match sorted with
  | [] => [r]
  | x :: rest =>
      if row_leb keys r x then r :: x :: rest
      else x :: insert keys r rest
  end.

Fixpoint sort_values (keys : list ((OptionRow -> cell) * bool))
         (df : DataFrame) : DataFrame :=
  match df with
  | [] => []
  | r :: df' => insert keys r (sort_values keys df')
  end.

End Pandas.

(** [sort_values(['openInterest', 'volume'], ascending=[False, False])] *)
Definition by_openInterest_volume : list ((OptionRow -> cell) * bool) :=
  [(openInterest, false); (volume, false)].

(** Lines 214-221: the strike bounds, applied only when one is given. *)
Definition apply_strike_filters (strike_lower strike_upper : option Q)
           (df : DataFrame) : DataFrame :=
  match strike_lower, strike_upper with
  | None, None => df
  | _, _ =>
      let mask := Pandas.all_true df in
      let mask := match strike_lower with
                  | Some lo => Pandas.mask_and mask (Pandas.strike_ge lo df)
                  | None => mask
                  end in
      let mask := match strike_upper with
                  | Some hi => Pandas.mask_and mask (Pandas.strike_le hi df)
                  | None => mask
                  end in
      Pandas.boolean_index df mask
  end.

(** Lines 214-223: what is returned for a merged frame [df]. *)
Definition filter_and_sort (strike_lower strike_upper : option Q)
           (df : DataFrame) : DataFrame :=
  Pandas.sort_values by_openInterest_volume
    (apply_strike_filters strike_lower strike_upper df).

(* ===================================================================== *)
(** ** Exceptions, provider requests and the effect monad *)
(* ===================================================================== *)

(** The exceptions the pipeline meets that are below [Exception], which
    are the ones its handlers catch: the [ValueError] of [strptime], and
    what the provider raises.  The exceptions outside [Exception]
    ([KeyboardInterrupt], [SystemExit]) are the matter of the section on
    [BaseException] further down. *)
Inductive exn : Type :=
| ValueError (msg : string)
| ProviderError (msg : string).

(** [str(e)] *)
Definition str (e : exn) : string :=
  match e with ValueError msg | ProviderError msg => msg end.

Inductive outcome (A : Type) : Type :=
| Return (a : A)
| Raise (e : exn).
Arguments Return {A} a.
Arguments Raise {A} e.

(** The two requests the code sends through the shared session. *)
Inductive request : Type :=
| ListExpirations (ticker : string)              (* [t.options] *)
| FetchChain (ticker : string) (expiry : string) (* [t.option_chain(expiry)] *).

(** [Literal["C", "P"]] *)
Inductive OptionType : Type := C | P.

(** Truth value of an optional string: [None] and [""] are false. *)
Definition truthy (s : option string) : bool :=
  match s with
  | None => false
  | Some EmptyString => false
  | Some (String _ _) => true
  end.

(** What both functions return: [(DataFrame | None, str | None)]. *)
Definition result : Type := (option DataFrame * option string)%type.

Section Pipeline.

(** The provider: its hidden state and its two entry points. *)
Variable World : Type.
Variable provider_options :
  string -> World -> World * outcome (list string).
Variable provider_option_chain :
  string -> string -> World -> World * outcome Options.

(** The text of the [ValueError] that [strptime] raises on a string. *)
Variable strptime_message : string -> string.

Record state : Type := mkState { world : World; requests : list request }.

Definition M (A : Type) : Type := state -> state * outcome A.

Definition ret {A} (a : A) : M A := fun s => (s, Return a).

Definition raise {A} (e : exn) : M A := fun s => (s, Raise e).

Definition bind {A B} (m : M A) (k : A -> M B) : M B :=
  fun s =>
    match m s with
    | (s', Return a) => k a s'
    | (s', Raise e) => (s', Raise e)
    end.

(** [try: m  except Exception as e: handler e] *)
Definition try_except {A} (m : M A) (handler : exn -> M A) : M A :=
  fun s =>
    match m s with
    | (s', Return a) => (s', Return a)
    | (s', Raise e) => handler e s'
    end.

(** [try: m  except ValueError: return on_error], then [k]: the
    statement either leaves the function with [on_error] or goes on. *)
Definition try_except_ValueError_return {A B}
           (m : M A) (on_error : B) (k : M B) : M B :=
  fun s =>
    match m s with
    | (s', Return _) => k s'
    | (s', Raise (ValueError _)) => (s', Return on_error)
    | (s', Raise e) => (s', Raise e)
    end.

Notation "x <- m ;; k" := (bind m (fun x => k))
  (at level 61, m at next level, right associativity).

(** [datetime.strptime(s, "%Y-%m-%d").date()] *)
Definition strptime_date (s : string) : M date :=
  match strptime_ymd s with
  | Some d => ret d
  | None => raise (ValueError (strptime_message s))
  end.

(** [yf.Ticker(ticker, session=session).options] *)
Definition options (ticker : string) : M (list string) :=
  fun s =>
    let (w, r) := provider_options ticker (world s) in
    (mkState w (requests s ++ [ListExpirations ticker]), r).

(** [yf.Ticker(ticker, session=session).option_chain(expiry)] *)
Definition option_chain (ticker expiry : string) : M Options :=
  fun s =>
    let (w, r) := provider_option_chain ticker expiry (world s) in
    (mkState w (requests s ++ [FetchChain ticker expiry]), r).

(** Lines 122-148. *)
Definition get_options_chain (ticker : string) (expiry : option string)
           (option_type : option OptionType) : M result :=
  try_except
    (match expiry with
     | None | Some EmptyString =>
         ret (None, Some "No expiry date provided")
     | Some expiry =>
         chain <- option_chain ticker expiry ;;
         match option_type with
         | Some C => ret (Some (calls chain), None)
         | Some P => ret (Some (puts chain), None)
         | None => ret (Some (Pandas.concat [calls chain; puts chain]), None)
         end
     end)
    (fun e => ret (None, Some (str e))).

(** Lines 161-171, once for each of the two dates. *)
Definition validate_date (d : option string) (message : string)
           (k : M result) : M result :=
  match d with
  | Some (String _ _ as text) =>
      try_except_ValueError_return (strptime_date text)
                                   (None, Some message) k
  | _ => k
  end.

(** Lines 180-181. *)
Definition to_date_obj (d : option string) : M (option date) :=
  match d with
  | Some (String _ _ as text) =>
      obj <- strptime_date text ;; ret (Some obj)
  | _ => ret None
  end.

(** The test of lines 187-188. *)
Definition within (start_date_obj end_date_obj : option date)
           (exp_date : date) : bool :=
  match start_date_obj with
  | None => true
  | Some start => date_leb start exp_date
  end
  && match end_date_obj with
     | None => true
     | Some stop => date_leb exp_date stop
     end.

(** Lines 184-189: the loop over [expirations], [valid_expirations]
    being the list built so far. *)
Fixpoint select_expirations (start_date_obj end_date_obj : option date)
         (expirations valid_expirations : list string) : M (list string) :=
  match expirations with
  | [] => ret valid_expirations
  | exp :: rest =>
      exp_date <- strptime_date exp ;;
      if within start_date_obj end_date_obj exp_date
      then select_expirations start_date_obj end_date_obj rest
                              (valid_expirations ++ [exp])
      else select_expirations start_date_obj end_date_obj rest
                              valid_expirations
  end.

(** [list(executor.map(f, items))]: one result per item, in the order
    of the items.  The pool runs the calls concurrently; the traversal
    fixes one of the orders in which their requests may reach the
    provider, that of the list.  The results and their order do not
    depend on this choice of the embedding; the order of the logged
    chain requests does. *)
Fixpoint executor_map {A B} (f : A -> M B) (items : list A) : M (list B) :=
  match items with
  | [] => ret []
  | x :: rest =>
      y <- f x ;;
      ys <- executor_map f rest ;;
      ret (y :: ys)
  end.

(** Lines 202-207: the loop over [zip(options_results, valid_expirations)],
    [filtered_option_chains] being the list built so far. *)
Fixpoint collect_chains (zipped : list (result * string))
         (filtered_option_chains : list DataFrame) : list DataFrame :=
  match zipped with
  | [] => filtered_option_chains
  | ((chain, error), expiry) :: rest =>
      if truthy error then collect_chains rest filtered_option_chains
      else match chain with
           | Some chain =>
               collect_chains rest
                 (filtered_option_chains
                    ++ [Pandas.assign_expiryDate expiry chain])
           | None => collect_chains rest filtered_option_chains
           end
  end.

(** Lines 209-223. *)
Definition merge_filter_sort (ticker : string)
           (strike_lower strike_upper : option Q)
           (filtered_option_chains : list DataFrame) : result :=
  match filtered_option_chains with
  | [] => (None, Some ("No options found for " ++ ticker
                         ++ " matching criteria")%string)
  | _ :: _ =>
      let df := Pandas.concat filtered_option_chains in
      (Some (filter_and_sort strike_lower strike_upper df), None)
  end.

(** Lines 150-227. *)
Definition get_filtered_options (ticker : string)
           (start_date end_date : option string)
           (strike_lower strike_upper : option Q)
           (option_type : option OptionType) : M result :=
  try_except
    (validate_date start_date "Invalid start_date format. Use YYYY-MM-DD"
    (validate_date end_date "Invalid end_date format. Use YYYY-MM-DD"
    (expirations <- options ticker ;;
     match expirations with
     | [] => ret (None, Some ("No options available for " ++ ticker)%string)
     | _ :: _ =>
         start_date_obj <- to_date_obj start_date ;;
         end_date_obj <- to_date_obj end_date ;;
         valid_expirations <-
           select_expirations start_date_obj end_date_obj expirations [] ;;
         match valid_expirations with
         | [] => ret (None, Some ("No options found for " ++ ticker
                                    ++ " within specified date range")%string)
         | _ :: _ =>
             options_results <-
               executor_map
                 (fun exp => get_options_chain ticker (Some exp) option_type)
                 valid_expirations ;;
             ret (merge_filter_sort ticker strike_lower strike_upper
                    (collect_chains
                       (combine options_results valid_expirations) []))
         end
     end)))
    (fun e => ret (None, Some ("Failed to retrieve options data: "
                                 ++ str e)%string)).

End Pipeline.

Arguments mkState {World} world requests.
Arguments world {World} s.
Arguments requests {World} s.
Arguments ret {World A} a s.
Arguments raise {World A} e s.
Arguments bind {World A B} m k s.
Arguments try_except {World A} m handler s.
Arguments executor_map {World A B} f items s.

(* ===================================================================== *)
(** ** Vocabulary of the statements *)
(* ===================================================================== *)

(** The side of a chain that an option type asks for. *)
Definition side (option_type : option OptionType) (chain : Options)
  : DataFrame :=
  match option_type with
  | Some C => calls chain
  | Some P => puts chain
  | None => calls chain ++ puts chain
  end.

(** What a result of [cell_compare] says about two cells. *)
Definition rank_spec (asc : bool) (x y : cell) (c : comparison) : Prop :=
  match x, y with
  | Num p, Num q =>
      match c with
      | Eq => (p == q)%Q
      | Lt => if asc then (p < q)%Q else (q < p)%Q
      | Gt => if asc then (q < p)%Q else (p < q)%Q
      end
  | Num _, NaN => c = Lt
  | NaN, Num _ => c = Gt
  | NaN, NaN => c = Eq
  end.

(** Row [a] may stand before row [b] in the order of the sort columns. *)
Definition before (keys : list ((OptionRow -> cell) * bool))
           (a b : OptionRow) : Prop :=
  Pandas.row_leb keys a b = true.

(** A date argument the validation lets through: absent (or empty), or
    a text that [strptime] accepts. *)
Definition accepted (d : option string) : bool :=
  match d with
  | Some (String _ _ as text) =>
      match strptime_ymd text with Some _ => true | None => false end
  | _ => true
  end.

(** A date argument that is given and that [strptime] refuses. *)
Definition malformed (d : option string) : bool := negb (accepted d).

(** The bound a date argument stands for, when it stands for one. *)
Definition bound_of (d : option string) : option date :=
  match d with
  | Some (String _ _ as text) => strptime_ymd text
  | _ => None
  end.

(** [start <= e] (when start is given) and [e <= end] (when end is
    given), for an expiration [e] of the provider's list. *)
Definition in_date_range (start_date end_date : option string)
           (e : string) : bool :=
  match strptime_ymd e with
  | Some d =>
      match bound_of start_date with
      | Some a => date_leb a d
      | None => true
      end
      && match bound_of end_date with
         | Some b => date_leb d b
         | None => true
         end
  | None => false
  end.

(** A strike inside the bounds, each bound inclusive and optional. *)
Definition within_strike_bounds (strike_lower strike_upper : option Q)
           (r : OptionRow) : Prop :=
  (forall lo, strike_lower = Some lo -> (lo <= strike r)%Q)
  /\ (forall hi, strike_upper = Some hi -> (strike r <= hi)%Q).

Definition within_strike_boundsb (strike_lower strike_upper : option Q)
           (r : OptionRow) : bool :=
  match strike_lower with Some lo => Qle_bool lo (strike r) | None => true end
  && match strike_upper with Some hi => Qle_bool (strike r) hi | None => true end.

(** "At least as large", a missing value counting as the smallest, and
    "equal" on cells. *)
Definition cell_ge (x y : cell) : Prop :=
  match x, y with
  | Num p, Num q => (q <= p)%Q
  | _, NaN => True
  | NaN, Num _ => False
  end.

Definition cell_eq (x y : cell) : Prop :=
  match x, y with
  | Num p, Num q => (p == q)%Q
  | NaN, NaN => True
  | _, _ => False
  end.

(** Row [a] may stand before row [b] in a frame sorted by open interest
    descending, then by volume descending. *)
Definition oi_then_volume_desc (a b : OptionRow) : Prop :=
  cell_ge (openInterest a) (openInterest b)
  /\ (cell_eq (openInterest a) (openInterest b) ->
      cell_ge (volume a) (volume b)).

(** Rows equal on both sort keys. *)
Definition same_keys (a b : OptionRow) : Prop :=
  cell_eq (openInterest a) (openInterest b) /\ cell_eq (volume a) (volume b).

(** The fetches that count as successes in the loop of lines 202-207,
    each with the expiration it was made for. *)
Fixpoint successes (zipped : list (result * string))
  : list (string * DataFrame) :=
  match zipped with
  | [] => []
  | ((Some chain, error), expiry) :: rest =>
      if truthy error then successes rest
      else (expiry, chain) :: successes rest
  | ((None, _), _) :: rest => successes rest
  end.

(** The rows of the successful fetches, tagged, in merge order. *)
Definition tagged_rows (fetched : list (string * DataFrame)) : DataFrame :=
  flat_map (fun '(expiry, chain) => Pandas.assign_expiryDate expiry chain)
           fetched.

(** A returned pair is either a frame without a message or a message
    without a frame. *)
Definition well_formed (r : result) : Prop :=
  (exists df, r = (Some df, None)) \/ (exists msg, r = (None, Some msg)).

(** A date of the calendar: the bounds of [datetime.date]. *)
Definition calendar_day (d : date) : Prop :=
  (1 <= year d <= 9999)%Z /\ (1 <= month d <= 12)%Z
  /\ (1 <= day d <= days_in_month (year d) (month d))%Z.

(** The text YYYY-MM-DD of a date, every field padded with zeros (what
    [date.isoformat()] and [strftime("%Y-%m-%d")] write). *)
Definition digit_char (d : Z) : ascii := ascii_of_N (Z.to_N (48 + d)).

Definition two_digits (n : Z) : list ascii :=
  [digit_char (n / 10); digit_char (n mod 10)].

Definition four_digits (n : Z) : list ascii :=
  [digit_char (n / 1000); digit_char (n / 100 mod 10);
   digit_char (n / 10 mod 10); digit_char (n mod 10)].

Definition isoformat (d : date) : string :=
  string_of_list_ascii
    (four_digits (year d)
       ++ "-"%char :: two_digits (month d)
       ++ "-"%char :: two_digits (day d)).

(** A text in the exact form YYYY-MM-DD: it names a calendar day and is
    the zero-padded text of that day. *)
Definition exact_form (text : string) : bool :=
  match strptime_ymd text with
  | Some d => String.eqb text (isoformat d)
  | None => false
  end.

(** A date argument made of ASCII characters only (or absent).  On such
    text the classes of the parser above are those of Python's regular
    expression; beyond ASCII, [\d] also takes the other decimal digits
    of Unicode, which a string of bytes does not tell apart. *)
Definition ascii_text (d : option string) : bool :=
  match d with
  | Some text =>
      forallb (fun c => (N_of_ascii c <? 128)%N) (list_ascii_of_string text)
  | None => true
  end.

(** "A date that is provided but is not in the exact form YYYY-MM-DD is
    refused before the provider is touched": the call ends in the state
    it started from, without a frame and with a message. *)
Definition refuses_all_but_the_exact_form (World : Type)
           (provider_options :
              string -> World -> World * outcome (list string))
           (provider_option_chain :
              string -> string -> World -> World * outcome Options)
           (strptime_message : string -> string) : Prop :=
  forall ticker start_date end_date strike_lower strike_upper option_type s,
    (exists text, start_date = Some text /\ exact_form text = false)
    \/ (exists text, end_date = Some text /\ exact_form text = false) ->
    exists message,
      get_filtered_options World provider_options provider_option_chain
        strptime_message ticker start_date end_date strike_lower
        strike_upper option_type s
      = (s, Return (None, Some message)).

(** One range of dates is at least as wide as another: it starts no
    later and ends no earlier (an absent bound is the widest). *)
Definition starts_no_later (wide narrow : option string) : Prop :=
  match bound_of wide, bound_of narrow with
  | None, _ => True
  | Some a', Some a => date_leb a' a = true
  | Some _, None => False
  end.

Definition ends_no_earlier (wide narrow : option string) : Prop :=
  match bound_of wide, bound_of narrow with
  | None, _ => True
  | Some b', Some b => date_leb b b' = true
  | Some _, None => False
  end.

(* ===================================================================== *)
(** ** A small provider to run the pipeline on *)
(* ===================================================================== *)

Module Sample.

Local Open Scope Q_scope.

Definition row (symbol : string) (k : Q) (vol oi : cell) : OptionRow :=
  mkRow symbol k vol oi None.

Definition january : Options :=
  mkOptions [row "JAN-C-90" 90 (Num 10) (Num 500)]
            [row "JAN-P-90" 90 (Num 3) (Num 20)].

Definition february : Options :=
  mkOptions [row "FEB-C-100" 100 (Num 7) (Num 40);
             row "FEB-C-125" 125 NaN (Num 40);
             row "FEB-C-200" 200 (Num 7) (Num 40)]
            [row "FEB-P-150" 150 (Num 9) (Num 40);
             row "FEB-P-90" 90 (Num 1) NaN].

(** The world counts the requests served.  The ticker "AAPL" has three
    expirations; every other ticker makes the provider raise. *)
Definition list_expirations (ticker : string) (w : nat)
  : nat * outcome (list string) :=
  (S w,
   if String.eqb ticker "AAPL"
   then Return ["2025-01-17"; "2025-02-21"; "2025-03-21"]%string
   else Raise (ProviderError "No data found, symbol may be delisted")).

(** The chain of March is unavailable. *)
Definition fetch_chain (ticker expiry : string) (w : nat)
  : nat * outcome Options :=
  (S w,
   if String.eqb expiry "2025-01-17" then Return january
   else if String.eqb expiry "2025-02-21" then Return february
   else Raise (ProviderError "HTTP Error 500")).

Definition message (s : string) : string :=
  ("time data " ++ s ++ " does not match format %Y-%m-%d")%string.

Definition start : state nat := mkState 0%nat [].

Definition run_filtered :=
  get_filtered_options nat list_expirations fetch_chain message.
Definition run_chain := get_options_chain nat fetch_chain.

(** The states and values a run for "AAPL" goes through when the range
    keeps February and March. *)
Definition listed : state nat := mkState 1%nat [ListExpirations "AAPL"].

Definition february_march : list string := ["2025-02-21"; "2025-03-21"]%string.

Definition fetched : state nat :=
  mkState 3%nat [ListExpirations "AAPL"; FetchChain "AAPL" "2025-02-21";
                 FetchChain "AAPL" "2025-03-21"].

Definition february_march_results : list result :=
  [(Some (calls february ++ puts february), None);
   (None, Some "HTTP Error 500"%string)].

(** What the call returns for strikes between 100 and 150. *)
Definition between_100_and_150 : DataFrame :=
  map (Pandas.set_expiryDate "2025-02-21")
      [row "FEB-P-150" 150 (Num 9) (Num 40);
       row "FEB-C-100" 100 (Num 7) (Num 40);
       row "FEB-C-125" 125 NaN (Num 40)].

End Sample.

(* ===================================================================== *)
(** ** The single-call accessors (lines 26-120) *)
(* ===================================================================== *)

(** [Literal["1d", "5d", "1mo", "3mo", "6mo", "1y", "2y", "5y", "10y",
    "ytd", "max"]] *)
Inductive Period : Type :=
| period_1d | period_5d | period_1mo | period_3mo | period_6mo | period_1y
| period_2y | period_5y | period_10y | period_ytd | period_max.

(** [Literal["income", "balance", "cash"]] and
    [Literal["quarterly", "annual"]] *)
Inductive StatementType : Type := income | balance | cash.
Inductive Frequency : Type := quarterly | annual.

(** The calls that the accessors make on a [yf.Ticker]; the six
    statement properties ([income_stmt], [quarterly_income_stmt],
    [balance_sheet], ...) are one constructor with two arguments. *)
Inductive endpoint : Type :=
| GetInfo (ticker : string)
| GetCalendar (ticker : string)
| GetRecommendations (ticker : string)
| GetUpgradesDowngrades (ticker : string)
| History (ticker : string) (period : Period)
| Statement (ticker : string) (statement_type : StatementType)
            (frequency : Frequency)
| GetInstitutionalHolders (ticker : string)
| GetMutualfundHolders (ticker : string)
| GetEarningsHistory (ticker : string)
| GetInsiderTransactions (ticker : string).

(** A parameter with a default value: [None] is the omitted argument. *)
Definition or_default {A : Type} (default : A) (given : option A) : A :=
  match given with Some a => a | None => default end.

(** [df.head(n)], which is [df.iloc[:n]]: the first [n] rows, and for a
    negative [n] all rows but the last [-n]. *)
Definition head {A : Type} (n : Z) (df : list A) : list A :=
  if (0 <=? n)%Z then firstn (Z.to_nat n) df
  else firstn (List.length df - Z.to_nat (- n)) df.

Section Accessors.

(** The provider behind the accessors: dictionaries for two of the
    calls, frames (or [None]) for the others.  The state of a session is
    the provider's world together with the list of the calls made. *)
Variable World : Type.
Variable Dict : Type.
Variable Row : Type.
Variable provider_dict : endpoint -> World -> World * outcome Dict.
Variable provider_frame :
  endpoint -> World -> World * outcome (option (list Row)).

(** [df.sort_index(ascending=False)] on the frame of upgrades and
    downgrades, whose index is the grade date.  The order it gives to
    rows of one date is not fixed by pandas; the function is left
    open. *)
Variable sort_index_descending : list Row -> list Row.

Definition Session : Type := state (World * list endpoint).

Definition calls_made (s : Session) : list endpoint := snd (world s).

Definition after_call (ep : endpoint) (w : World) (s : Session) : Session :=
  mkState (w, calls_made s ++ [ep]) (requests s).

Definition call_dict (ep : endpoint) : M (World * list endpoint) Dict :=
  fun s =>
    let (w, r) := provider_dict ep (fst (world s)) in (after_call ep w s, r).

Definition call_frame (ep : endpoint)
  : M (World * list endpoint) (option (list Row)) :=
  fun s =>
    let (w, r) := provider_frame ep (fst (world s)) in (after_call ep w s, r).

Notation "x <- m ;; k" := (bind m (fun x => k))
  (at level 61, m at next level, right associativity).

(** Lines 26-31. *)
Definition get_ticker_info (ticker : string)
  : M (World * list endpoint) (option Dict) :=
  try_except
    (info <- call_dict (GetInfo ticker) ;; ret (Some info))
    (fun e => ret None).

(** Lines 33-39. *)
Definition get_calendar (ticker : string)
  : M (World * list endpoint) (option Dict) :=
  try_except
    (calendar <- call_dict (GetCalendar ticker) ;; ret (Some calendar))
    (fun e => ret None).

(** Lines 41-51. *)
Definition get_recommendations (ticker : string) (limit : option Z)
  : M (World * list endpoint) (option (list Row)) :=
  let limit := or_default 5%Z limit in
  try_except
    (df <- call_frame (GetRecommendations ticker) ;;
     ret match df with
         | Some df => Some (head limit df)
         | None => None
         end)
    (fun e => ret None).

(** Lines 53-63. *)
Definition get_upgrades_downgrades (ticker : string) (limit : option Z)
  : M (World * list endpoint) (option (list Row)) :=
  let limit := or_default 5%Z limit in
  try_except
    (df <- call_frame (GetUpgradesDowngrades ticker) ;;
     ret match df with
         | Some df => Some (head limit (sort_index_descending df))
         | None => None
         end)
    (fun e => ret None).

(** Lines 65-73. *)
Definition get_price_history (ticker : string) (period : option Period)
  : M (World * list endpoint) (option (list Row)) :=
  let period := or_default period_1mo period in
  try_except (call_frame (History ticker period)) (fun e => ret None).

(** Lines 75-90.  The dictionary display reads all six properties, in
    the order they are written, before the lookup. *)
Definition get_financial_statements (ticker : string)
           (statement_type : option StatementType)
           (frequency : option Frequency)
  : M (World * list endpoint) (option (list Row)) :=
  let statement_type := or_default income statement_type in
  let frequency := or_default quarterly frequency in
  try_except
    (income_stmt <- call_frame (Statement ticker income annual) ;;
     quarterly_income_stmt <- call_frame (Statement ticker income quarterly) ;;
     balance_sheet <- call_frame (Statement ticker balance annual) ;;
     quarterly_balance_sheet <-
       call_frame (Statement ticker balance quarterly) ;;
     cashflow <- call_frame (Statement ticker cash annual) ;;
     quarterly_cashflow <- call_frame (Statement ticker cash quarterly) ;;
     ret match statement_type, frequency with
         | income, annual => income_stmt
         | income, quarterly => quarterly_income_stmt
         | balance, annual => balance_sheet
         | balance, quarterly => quarterly_balance_sheet
         | cash, annual => cashflow
         | cash, quarterly => quarterly_cashflow
         end)
    (fun e => ret None).

(** Lines 92-101. *)
Definition get_institutional_holders (ticker : string) (top_n : option Z)
  : M (World * list endpoint)
      (option (list Row) * option (list Row)) :=
  let top_n := or_default 20%Z top_n in
  try_except
    (inst <- call_frame (GetInstitutionalHolders ticker) ;;
     fund <- call_frame (GetMutualfundHolders ticker) ;;
     ret (match inst with Some inst => Some (head top_n inst) | None => None end,
          match fund with Some fund => Some (head top_n fund) | None => None end))
    (fun e => ret (None, None)).

(** Lines 103-112. *)
Definition get_earnings_history (ticker : string) (limit : option Z)
  : M (World * list endpoint) (option (list Row)) :=
  let limit := or_default 12%Z limit in
  try_except
    (df <- call_frame (GetEarningsHistory ticker) ;;
     ret match df with
         | Some df => Some (head limit df)
         | None => None
         end)
    (fun e => ret None).

(** Lines 114-120. *)
Definition get_insider_trades (ticker : string) (limit : option Z)
  : M (World * list endpoint) (option (list Row)) :=
  let limit := or_default 30%Z limit in
  try_except
    (df <- call_frame (GetInsiderTransactions ticker) ;;
     ret match df with
         | Some df => Some (head limit df)
         | None => None
         end)
    (fun e => ret None).

End Accessors.

Arguments calls_made {World} s.
Arguments after_call {World} ep w s.

(** The number of rows that [head n] keeps of a frame of [len] rows. *)
Definition head_size (n : Z) (len : nat) : nat :=
  if (0 <=? n)%Z then Nat.min (Z.to_nat n) len else len - Z.to_nat (- n).

(** The six statement calls, in the order the code makes them. *)
Definition statement_calls (ticker : string) : list endpoint :=
  [Statement ticker income annual; Statement ticker income quarterly;
   Statement ticker balance annual; Statement ticker balance quarterly;
   Statement ticker cash annual; Statement ticker cash quarterly].

(* ===================================================================== *)
(** ** Exceptions that [except Exception] does not catch *)
(* ===================================================================== *)

(** The embedding above takes the provider to fail with exceptions below
    [Exception] only ([exn]).  Python has others, which the handlers of
    the two functions do not catch; this section embeds the two
    functions once more with a provider that may raise them. *)
Inductive BaseException : Type :=
| KeyboardInterrupt
| SystemExit (code : Z)
| GeneratorExit.

(** How a computation ends: as before, with a value or with an exception
    below [Exception], or with one of the others on its way out. *)
Inductive completion (A : Type) : Type :=
| Completes (o : outcome A)
| Propagates (b : BaseException).
Arguments Completes {A} o.
Arguments Propagates {A} b.

Module Interruptible.

Section Pipeline.

Variable World : Type.
Variable provider_options :
  string -> World -> World * completion (list string).
Variable provider_option_chain :
  string -> string -> World -> World * completion Options.
Variable strptime_message : string -> string.

(** A computation of the embedding above, which raises nothing but
    exceptions below [Exception]. *)
Definition lift {A : Type} (m : M World A)
  : state World -> state World * completion A :=
  fun s => let (s', o) := m s in (s', Completes o).

Definition M (A : Type) : Type := state World -> state World * completion A.

Definition ret {A} (a : A) : M A := fun s => (s, Completes (Return a)).

Definition bind {A B} (m : M A) (k : A -> M B) : M B :=
  fun s =>
    match m s with
    | (s', Completes (Return a)) => k a s'
    | (s', Completes (Raise e)) => (s', Completes (Raise e))
    | (s', Propagates b) => (s', Propagates b)
    end.

(** [try: m  except Exception as e: handler e] *)
Definition try_except {A} (m : M A) (handler : exn -> M A) : M A :=
  fun s =>
    match m s with
    | (s', Completes (Return a)) => (s', Completes (Return a))
    | (s', Completes (Raise e)) => handler e s'
    | (s', Propagates b) => (s', Propagates b)
    end.

(** [try: m  except ValueError: return on_error], then [k]. *)
Definition try_except_ValueError_return {A B}
           (m : M A) (on_error : B) (k : M B) : M B :=
  fun s =>
    match m s with
    | (s', Completes (Return _)) => k s'
    | (s', Completes (Raise (ValueError _))) =>
        (s', Completes (Return on_error))
    | (s', Completes (Raise e)) => (s', Completes (Raise e))
    | (s', Propagates b) => (s', Propagates b)
    end.

Notation "x <- m ;; k" := (bind m (fun x => k))
  (at level 61, m at next level, right associativity).

(** [yf.Ticker(ticker, session=session).options] *)
Definition options (ticker : string) : M (list string) :=
  fun s =>
    let (w, r) := provider_options ticker (world s) in
    (mkState w (requests s ++ [ListExpirations ticker]), r).

(** [yf.Ticker(ticker, session=session).option_chain(expiry)] *)
Definition option_chain (ticker expiry : string) : M Options :=
  fun s =>
    let (w, r) := provider_option_chain ticker expiry (world s) in
    (mkState w (requests s ++ [FetchChain ticker expiry]), r).

(** Lines 122-148. *)
Definition get_options_chain (ticker : string) (expiry : option string)
           (option_type : option OptionType) : M result :=
  try_except
    (match expiry with
     | None | Some EmptyString =>
         ret (None, Some "No expiry date provided")
     | Some expiry =>
         chain <- option_chain ticker expiry ;;
         match option_type with
         | Some C => ret (Some (calls chain), None)
         | Some P => ret (Some (puts chain), None)
         | None => ret (Some (Pandas.concat [calls chain; puts chain]), None)
         end
     end)
    (fun e => ret (None, Some (str e))).

(** Lines 161-171, once for each of the two dates. *)
Definition validate_date (d : option string) (message : string)
           (k : M result) : M result :=
  match d with
  | Some (String _ _ as text) =>
      try_except_ValueError_return
        (lift (strptime_date World strptime_message text))
        (None, Some message) k
  | _ => k
  end.

(** [list(executor.map(f, items))] *)
Fixpoint executor_map {A B} (f : A -> M B) (items : list A) : M (list B) :=
  match items with
  | [] => ret []
  | x :: rest =>
      y <- f x ;;
      ys <- executor_map f rest ;;
      ret (y :: ys)
  end.

(** Lines 150-227. *)
Definition get_filtered_options (ticker : string)
           (start_date end_date : option string)
           (strike_lower strike_upper : option Q)
           (option_type : option OptionType) : M result :=
  try_except
    (validate_date start_date "Invalid start_date format. Use YYYY-MM-DD"
    (validate_date end_date "Invalid end_date format. Use YYYY-MM-DD"
    (expirations <- options ticker ;;
     match expirations with
     | [] => ret (None, Some ("No options available for " ++ ticker)%string)
     | _ :: _ =>
         start_date_obj <-
           lift (to_date_obj World strptime_message start_date) ;;
         end_date_obj <-
           lift (to_date_obj World strptime_message end_date) ;;
         valid_expirations <-
           lift (select_expirations World strptime_message
                   start_date_obj end_date_obj expirations []) ;;
         match valid_expirations with
         | [] => ret (None, Some ("No options found for " ++ ticker
                                    ++ " within specified date range")%string)
         | _ :: _ =>
             options_results <-
               executor_map
                 (fun exp => get_options_chain ticker (Some exp) option_type)
                 valid_expirations ;;
             ret (merge_filter_sort ticker strike_lower strike_upper
                    (collect_chains
                       (combine options_results valid_expirations) []))
         end
     end)))
    (fun e => ret (None, Some ("Failed to retrieve options data: "
                                 ++ str e)%string)).

End Pipeline.

(** A provider that raises exceptions below [Exception] only, seen as a
    provider of this section, and the other way round. *)
Definition unexceptional {A : Type} (c : completion A) : outcome A :=
  match c with
  | Completes o => o
  | Propagates _ => Raise (ProviderError "")
  end.

Definition never_propagates {W A : Type} (call : W -> W * completion A)
  : Prop :=
  forall w, exists w' o, call w = (w', Completes o).

(** "The two functions never let an exception through to the caller":
    every call of either ends with a returned pair. *)
Definition nothing_gets_through (World : Type)
           (provider_options :
              string -> World -> World * completion (list string))
           (provider_option_chain :
              string -> string -> World -> World * completion Options)
           (strptime_message : string -> string) : Prop :=
  (forall ticker expiry option_type s,
      exists s' r,
        get_options_chain World provider_option_chain ticker expiry
                          option_type s
        = (s', Completes (Return r)))
  /\ (forall ticker start_date end_date strike_lower strike_upper
             option_type s,
        exists s' r,
          get_filtered_options World provider_options provider_option_chain
            strptime_message ticker start_date end_date strike_lower
            strike_upper option_type s
          = (s', Completes (Return r))).

(** The sample provider, and one whose chain request is interrupted from
    the keyboard. *)
Definition sample_list_expirations (ticker : string) (w : nat)
  : nat * completion (list string) :=
  let (w', o) := Sample.list_expirations ticker w in (w', Completes o).

Definition sample_fetch_chain (ticker expiry : string) (w : nat)
  : nat * completion Options :=
  let (w', o) := Sample.fetch_chain ticker expiry w in (w', Completes o).

Definition interrupted_fetch_chain (ticker expiry : string) (w : nat)
  : nat * completion Options :=
  (S w, Propagates KeyboardInterrupt).

End Interruptible.

(* ===================================================================== *)
(** ** More sample providers *)
(* ===================================================================== *)

(** A provider of expirations with two corner cases: the ticker "NEW"
    has no expirations yet, and every other ticker has a list with an
    entry that is no date. *)
Module Corner.

Definition list_expirations (ticker : string) (w : nat)
  : nat * outcome (list string) :=
  (S w,
   if String.eqb ticker "NEW" then Return []
   else Return ["2025-01-17"; "soon"; "2025-03-21"]%string).

Definition run_filtered :=
  get_filtered_options nat list_expirations Sample.fetch_chain
                       Sample.message.

Definition listed (ticker : string) : state nat :=
  mkState 1%nat [ListExpirations ticker].

End Corner.

(** A provider for the accessors.  A row is a grade date (as a number
    YYYYMMDD) and a firm.  The ticker "MSFT" has no annual cash-flow
    statement and no mutual-fund holders: these calls raise. *)
Module SampleAccessors.

Local Open Scope Z_scope.

Definition Row : Type := (Z * string)%type.

Definition grade_date (r : Row) : Z := fst r.

Definition grades : list Row :=
  [(20240105, "Firm A"); (20250310, "Firm B"); (20230720, "Firm C");
   (20250310, "Firm D"); (20241111, "Firm E"); (20220101, "Firm F");
   (20250101, "Firm G")]%string.

Definition unavailable : exn := ProviderError "HTTP Error 404".

Definition provider_dict (ep : endpoint) (w : nat) : nat * outcome string :=
  (S w,
   match ep with
   | GetInfo ticker => Return ("info of " ++ ticker)%string
   | GetCalendar ticker => Return ("calendar of " ++ ticker)%string
   | _ => Raise unavailable
   end).

Definition provider_frame (ep : endpoint) (w : nat)
  : nat * outcome (option (list Row)) :=
  (S w,
   match ep with
   | Statement ticker cash annual =>
       if String.eqb ticker "MSFT" then Raise unavailable
       else Return (Some [(2024, "cash annual")%string])
   | Statement ticker income quarterly =>
       Return (Some [(2024, "income quarterly")%string])
   | Statement ticker _ _ => Return (Some [(2024, "statement")%string])
   | GetMutualfundHolders ticker =>
       if String.eqb ticker "MSFT" then Raise unavailable else Return None
   | History _ _ => Return (Some [])
   | GetInfo _ | GetCalendar _ => Raise unavailable
   | _ => Return (Some grades)
   end).

(** A sort of the rows by grade date, latest first. *)
Fixpoint insert_by_date (r : Row) (l : list Row) : list Row :=
  match l with
  | [] => [r]
  | x :: rest =>
      if grade_date x <=? grade_date r then r :: x :: rest
      else x :: insert_by_date r rest
  end.

Fixpoint latest_first (l : list Row) : list Row :=
  match l with
  | [] => []
  | r :: rest => insert_by_date r (latest_first rest)
  end.

Definition start : Session nat := mkState (0%nat, []) [].

End SampleAccessors.

(* ===================================================================== *)
(** ** The order on dates *)
(* ===================================================================== *)

Module DateFacts.

Local Open Scope Z_scope.

Ltac date_order :=
  unfold date_leb;
  rewrite ?orb_true_iff, ?andb_true_iff, ?Z.ltb_lt, ?Z.eqb_eq, ?Z.leb_le.

Lemma date_leb_refl (a : date) : date_leb a a = true.
Proof. date_order. lia. Qed.

Lemma date_leb_trans (a b c : date) :
  date_leb a b = true -> date_leb b c = true -> date_leb a c = true.
Proof. date_order. lia. Qed.

Lemma date_leb_total (a b : date) :
  date_leb a b = true \/ date_leb b a = true.
Proof. date_order. lia. Qed.

Lemma date_leb_antisym (a b : date) :
  date_leb a b = true -> date_leb b a = true -> a = b.
Proof.
  destruct a as [ya ma da], b as [yb mb db]. date_order. simpl.
  intros H1 H2. f_equal; lia.
Qed.

(** A parsed date is a calendar day. *)
Lemma strptime_ymd_calendar (text : string) (d : date) :
  strptime_ymd text = Some d ->
  1 <= year d <= 9999 /\ 1 <= month d <= 12
  /\ 1 <= day d <= days_in_month (year d) (month d).
Proof.
  unfold strptime_ymd.
  destruct (match_year _) as [[y r1]|]; [|discriminate].
  destruct (match_month r1) as [[m r2]|]; [|discriminate].
  destruct (match_day r2) as [[dd [|c r3]]|]; try discriminate.
  unfold make_date.
  destruct (_ && _) eqn:E; [|discriminate].
  intros [= <-]. simpl.
  rewrite !andb_true_iff, !Z.leb_le in E. lia.
Qed.

End DateFacts.

(* ===================================================================== *)
(** ** Properties of the sort order and of [sort_values] *)
(* ===================================================================== *)

Module PandasFacts.
Import Pandas.
Local Open Scope Q_scope.

Lemma cell_compare_flip (asc : bool) (x y : cell) :
  cell_compare asc y x = CompOpp (cell_compare asc x y).
Proof.
  destruct x as [p|], y as [q|]; simpl; try reflexivity.
  destruct asc; symmetry; apply Qcompare_antisym.
Qed.

Lemma cell_compare_refl (asc : bool) (x : cell) : cell_compare asc x x = Eq.
Proof.
  destruct x as [p|]; simpl; [|reflexivity].
  destruct asc; apply Qeq_alt; reflexivity.
Qed.

Lemma cell_compare_spec (asc : bool) (x y : cell) :
  rank_spec asc x y (cell_compare asc x y).
Proof.
  destruct x as [p|], y as [q|]; simpl; try reflexivity.
  destruct asc.
  - destruct (Qcompare_spec p q); auto.
  - destruct (Qcompare_spec q p); auto. symmetry; assumption.
Qed.

(** Composition table of the comparison, the part the proofs use. *)
Lemma cell_compare_trans (asc : bool) (x y z : cell) :
  cell_compare asc x y <> Gt -> cell_compare asc y z <> Gt ->
  cell_compare asc x z <> Gt
  /\ (cell_compare asc x z = Eq ->
      cell_compare asc x y = Eq /\ cell_compare asc y z = Eq).
Proof.
  intros H1 H2.
  pose proof (cell_compare_spec asc x y) as Hxy.
  pose proof (cell_compare_spec asc y z) as Hyz.
  pose proof (cell_compare_spec asc x z) as Hxz.
  destruct (cell_compare asc x y), (cell_compare asc y z); try congruence;
    destruct (cell_compare asc x z);
    (split;
     [try discriminate
     |intros He; try discriminate He; try (split; reflexivity)]);
    exfalso; destruct x, y, z; simpl in *; try discriminate;
    destruct asc; lra.
Qed.

Section Order.
Variable keys : list ((OptionRow -> cell) * bool).

Lemma row_leb_total (a b : OptionRow) :
  row_leb keys a b = true \/ row_leb keys b a = true.
Proof.
  induction keys as [|[column asc] keys' IH]; simpl; [now left|].
  rewrite (cell_compare_flip asc (column a) (column b)).
  destruct (cell_compare asc (column a) (column b)); simpl; auto.
Qed.

Lemma row_leb_refl (a : OptionRow) : row_leb keys a a = true.
Proof. destruct (row_leb_total a a); assumption. Qed.

Lemma row_leb_trans (a b c : OptionRow) :
  row_leb keys a b = true -> row_leb keys b c = true ->
  row_leb keys a c = true.
Proof.
  induction keys as [|[column asc] keys' IH]; simpl; [reflexivity|].
  intros Hab Hbc.
  destruct (cell_compare_trans asc (column a) (column b) (column c))
    as [Hle Heq].
  - destruct (cell_compare asc (column a) (column b)); congruence.
  - destruct (cell_compare asc (column b) (column c)); congruence.
  - destruct (cell_compare asc (column a) (column c)) eqn:E;
      [|reflexivity|congruence].
    destruct Heq as [E1 E2]; [reflexivity|].
    rewrite E1 in Hab. rewrite E2 in Hbc. auto.
Qed.

Lemma tied_trans (a b c : OptionRow) :
  tied keys a b = true -> tied keys a c = true -> tied keys b c = true.
Proof.
  unfold tied. rewrite !andb_true_iff. intros [Hab Hba] [Hac Hca].
  split; eauto using row_leb_trans.
Qed.

Lemma insert_perm (r : OptionRow) (l : DataFrame) :
  Permutation (insert keys r l) (r :: l).
Proof.
  induction l as [|x l IH]; simpl; [reflexivity|].
  destruct (row_leb keys r x); [reflexivity|].
  rewrite IH. apply perm_swap.
Qed.

Lemma sort_values_perm (df : DataFrame) :
  Permutation (sort_values keys df) df.
Proof.
  induction df as [|r df IH]; simpl; [constructor|].
  rewrite insert_perm. now constructor.
Qed.

Lemma insert_sorted (r : OptionRow) (l : DataFrame) :
  StronglySorted (before keys) l ->
  StronglySorted (before keys) (insert keys r l).
Proof.
  induction 1 as [|x l Hl IH Hx]; simpl.
  - repeat constructor.
  - destruct (row_leb keys r x) eqn:E.
    + constructor; [constructor; assumption|].
      constructor; [exact E|].
      rewrite Forall_forall in Hx |- *. intros y Hy.
      eapply row_leb_trans; [exact E|]. apply Hx, Hy.
    + constructor; [assumption|].
      rewrite Forall_forall in Hx |- *. intros y Hy.
      apply (Permutation_in _ (insert_perm r l)) in Hy.
      destruct Hy as [<-|Hy]; [|apply Hx, Hy].
      destruct (row_leb_total x r) as [H|H]; [exact H|].
      unfold before. congruence.
Qed.

Lemma sort_values_sorted (df : DataFrame) :
  StronglySorted (before keys) (sort_values keys df).
Proof.
  induction df as [|r df IH]; simpl; [constructor|].
  now apply insert_sorted.
Qed.

(** Stability: the rows tied with any given row keep their order. *)
Lemma insert_stable (k r : OptionRow) (l : DataFrame) :
  filter (tied keys k) (insert keys r l) = filter (tied keys k) (r :: l).
Proof.
  induction l as [|x l IH]; [reflexivity|].
  simpl insert. destruct (row_leb keys r x) eqn:E; [reflexivity|].
  simpl. rewrite IH. simpl.
  destruct (tied keys k r) eqn:Er, (tied keys k x) eqn:Ex;
    try reflexivity.
  pose proof (tied_trans _ _ _ Er Ex) as Hrx.
  unfold tied in Hrx. apply andb_true_iff in Hrx. destruct Hrx. congruence.
Qed.

Lemma sort_values_stable (k : OptionRow) (df : DataFrame) :
  filter (tied keys k) (sort_values keys df) = filter (tied keys k) df.
Proof.
  induction df as [|r df IH]; [reflexivity|].
  simpl sort_values. rewrite insert_stable. simpl. now rewrite IH.
Qed.

End Order.

End PandasFacts.

(* ===================================================================== *)
(** ** The strike filter and the order, in the words of the statements *)
(* ===================================================================== *)

Module FilterFacts.
Import Pandas PandasFacts.

Lemma boolean_index_map (f : OptionRow -> bool) (df : DataFrame) :
  boolean_index df (map f df) = filter f df.
Proof.
  induction df as [|r df IH]; simpl; [reflexivity|].
  rewrite IH. reflexivity.
Qed.

Lemma mask_and_map (f g : OptionRow -> bool) (df : DataFrame) :
  mask_and (map f df) (map g df) = map (fun r => f r && g r) df.
Proof.
  induction df as [|r df IH]; simpl; [reflexivity|]. now rewrite IH.
Qed.

Lemma filter_all (df : DataFrame) : filter (fun _ => true) df = df.
Proof.
  induction df as [|r df IH]; simpl; [reflexivity|]. now rewrite IH.
Qed.

(** The mask arithmetic of lines 215-221 is a filter on the bounds. *)
Lemma apply_strike_filters_filter (lo hi : option Q) (df : DataFrame) :
  apply_strike_filters lo hi df = filter (within_strike_boundsb lo hi) df.
Proof.
  unfold apply_strike_filters, within_strike_boundsb, all_true,
    strike_ge, strike_le.
  destruct lo as [lo|], hi as [hi|];
    rewrite ?mask_and_map, ?boolean_index_map;
    try (apply filter_ext; intros r; simpl; reflexivity).
  - apply filter_ext. intros r. simpl. now rewrite andb_true_r.
  - symmetry. apply filter_all.
Qed.

Lemma within_strike_bounds_iff (lo hi : option Q) (r : OptionRow) :
  within_strike_boundsb lo hi r = true <-> within_strike_bounds lo hi r.
Proof.
  unfold within_strike_boundsb, within_strike_bounds.
  rewrite andb_true_iff.
  destruct lo as [lo|], hi as [hi|]; rewrite ?Qle_bool_iff; split;
    try (intros [H1 H2]; split; [intros ? [= <-]|intros ? [= <-]]; auto);
    try (intros [H1 H2]; split; auto; discriminate);
    intros [H1 H2]; split; auto.
Qed.

Lemma cell_ge_compare (x y : cell) :
  cell_ge x y <-> cell_compare false x y <> Gt.
Proof.
  destruct x as [p|], y as [q|]; simpl;
    try (split; [discriminate|trivial]).
  - apply Qle_alt.
  - split; [contradiction|congruence].
Qed.

Lemma cell_eq_compare (x y : cell) :
  cell_eq x y <-> cell_compare false x y = Eq.
Proof.
  destruct x as [p|], y as [q|]; simpl;
    try (split; [contradiction|discriminate]).
  - rewrite <- Qeq_alt. split; intros H; symmetry; exact H.
  - split; trivial.
Qed.

(** The order of [sort_values] on the two columns is "open interest
    descending, then volume descending". *)
Lemma row_leb_oi_then_volume (a b : OptionRow) :
  row_leb by_openInterest_volume a b = true <-> oi_then_volume_desc a b.
Proof.
  unfold oi_then_volume_desc, by_openInterest_volume. simpl.
  rewrite !cell_ge_compare, cell_eq_compare.
  destruct (cell_compare false (openInterest a) (openInterest b));
    destruct (cell_compare false (volume a) (volume b));
    intuition congruence.
Qed.

Lemma tied_same_keys (a b : OptionRow) :
  tied by_openInterest_volume a b = true <-> same_keys a b.
Proof.
  unfold tied, same_keys, by_openInterest_volume. simpl.
  rewrite !cell_eq_compare, andb_true_iff.
  rewrite (cell_compare_flip false (openInterest a) (openInterest b)).
  rewrite (cell_compare_flip false (volume a) (volume b)).
  destruct (cell_compare false (openInterest a) (openInterest b));
    destruct (cell_compare false (volume a) (volume b)); simpl;
    intuition congruence.
Qed.

Lemma filter_and_sort_sorted (lo hi : option Q) (df : DataFrame) :
  StronglySorted oi_then_volume_desc (filter_and_sort lo hi df).
Proof.
  unfold filter_and_sort.
  pose proof (sort_values_sorted by_openInterest_volume
                (apply_strike_filters lo hi df)) as H.
  induction H as [|r l Hl IH Hr]; constructor; [assumption|].
  rewrite Forall_forall in Hr |- *. intros x Hx.
  apply row_leb_oi_then_volume, Hr, Hx.
Qed.

Lemma filter_and_sort_perm (lo hi : option Q) (df : DataFrame) :
  Permutation (filter_and_sort lo hi df)
              (filter (within_strike_boundsb lo hi) df).
Proof.
  unfold filter_and_sort. rewrite sort_values_perm.
  now rewrite apply_strike_filters_filter.
Qed.

Lemma filter_and_sort_stable (lo hi : option Q) (k : OptionRow)
      (df : DataFrame) :
  filter (tied by_openInterest_volume k) (filter_and_sort lo hi df)
  = filter (tied by_openInterest_volume k)
           (filter (within_strike_boundsb lo hi) df).
Proof.
  unfold filter_and_sort. rewrite sort_values_stable.
  now rewrite apply_strike_filters_filter.
Qed.

Lemma filter_and_sort_In (lo hi : option Q) (df : DataFrame) (r : OptionRow) :
  In r (filter_and_sort lo hi df) <-> In r df /\ within_strike_bounds lo hi r.
Proof.
  rewrite <- within_strike_bounds_iff, <- filter_In.
  split; apply Permutation_in;
    [|symmetry]; apply filter_and_sort_perm.
Qed.

Lemma tagged_rows_In (fetched : list (string * DataFrame)) (r : OptionRow) :
  In r (tagged_rows fetched)
  <-> exists expiry chain r0,
        In (expiry, chain) fetched /\ In r0 chain
        /\ r = set_expiryDate expiry r0.
Proof.
  unfold tagged_rows, assign_expiryDate. rewrite in_flat_map. split.
  - intros ([expiry chain] & Hin & Hr). apply in_map_iff in Hr.
    destruct Hr as (r0 & <- & Hr0). eauto 6.
  - intros (expiry & chain & r0 & Hin & Hr0 & ->).
    exists (expiry, chain). split; [assumption|]. now apply in_map.
Qed.

Lemma successes_In (zipped : list (result * string)) (expiry : string)
      (chain : DataFrame) :
  In (expiry, chain) (successes zipped)
  <-> exists error,
        In ((Some chain, error), expiry) zipped /\ truthy error = false.
Proof.
  induction zipped as [|[[[c|] err] e] zipped IH]; simpl.
  - split; [contradiction|intros (? & [] & _)].
  - destruct (truthy err) eqn:Ht; simpl; rewrite IH; split.
    + intros (error & H & Hf). eauto.
    + intros (error & [[= <- <- <-]|H] & Hf); [congruence|eauto].
    + intros [[= <- <-]|(error & H & Hf)]; eauto.
    + intros (error & [[= <- <- <-]|H] & Hf); [now left|right; eauto].
  - rewrite IH. split.
    + intros (error & H & Hf). eauto.
    + intros (error & [[=]|H] & Hf). eauto.
Qed.

End FilterFacts.

(* ===================================================================== *)
(** ** Runs of the stages *)
(* ===================================================================== *)

Section Runs.

Variable World : Type.
Variable provider_options :
  string -> World -> World * outcome (list string).
Variable provider_option_chain :
  string -> string -> World -> World * outcome Options.
Variable strptime_message : string -> string.

Local Abbreviation strptime_date := (strptime_date World strptime_message).
Local Abbreviation validate_date := (validate_date World strptime_message).
Local Abbreviation to_date_obj := (to_date_obj World strptime_message).
Local Abbreviation select_expirations :=
  (select_expirations World strptime_message).
Local Abbreviation options := (options World provider_options).
Local Abbreviation option_chain := (option_chain World provider_option_chain).
Local Abbreviation get_options_chain :=
  (get_options_chain World provider_option_chain).
Local Abbreviation get_filtered_options :=
  (get_filtered_options World provider_options provider_option_chain
                        strptime_message).

Lemma strptime_date_run (text : string) (s : state World) :
  strptime_date text s
  = (s, match strptime_ymd text with
        | Some d => Return d
        | None => Raise (ValueError (strptime_message text))
        end).
Proof.
  unfold strptime_date. destruct (strptime_ymd text); reflexivity.
Qed.

Lemma validate_date_run (d : option string) (message : string)
      (k : M World result) (s : state World) :
  validate_date d message k s
  = if accepted d then k s else (s, Return (None, Some message)).
Proof.
  destruct d as [[|c text]|]; simpl; try reflexivity.
  unfold try_except_ValueError_return. rewrite strptime_date_run.
  destruct (strptime_ymd (String c text)); reflexivity.
Qed.

Lemma to_date_obj_run (d : option string) (s : state World) :
  accepted d = true -> to_date_obj d s = (s, Return (bound_of d)).
Proof.
  destruct d as [[|c text]|]; simpl; try reflexivity.
  unfold bind. rewrite strptime_date_run.
  destruct (strptime_ymd (String c text)); [reflexivity|discriminate].
Qed.

Lemma to_date_obj_state (d : option string) (s s' : state World)
      (r : outcome (option date)) :
  to_date_obj d s = (s', r) -> s' = s.
Proof.
  destruct d as [[|c text]|]; simpl; try (intros [= <- _]; reflexivity).
  unfold bind. rewrite strptime_date_run.
  destruct (strptime_ymd (String c text)); intros [= <- _]; reflexivity.
Qed.

Lemma select_expirations_state (a b : option date) (exps acc : list string)
      (s s' : state World) (r : outcome (list string)) :
  select_expirations a b exps acc s = (s', r) -> s' = s.
Proof.
  revert acc. induction exps as [|e exps IH]; simpl; intros acc.
  - intros [= <- _]; reflexivity.
  - unfold bind. rewrite strptime_date_run.
    destruct (strptime_ymd e) as [d|]; [|intros [= <- _]; reflexivity].
    destruct (within a b d); apply IH.
Qed.

Lemma select_expirations_run (start_date end_date : option string)
      (exps acc : list string) (s : state World) :
  Forall (fun e => strptime_ymd e <> None) exps ->
  select_expirations (bound_of start_date) (bound_of end_date) exps acc s
  = (s, Return (acc ++ filter (in_date_range start_date end_date) exps)).
Proof.
  intros Hall. revert acc.
  induction Hall as [|e exps He _ IH]; simpl; intros acc.
  - now rewrite app_nil_r.
  - unfold bind. rewrite strptime_date_run. unfold in_date_range at 1.
    destruct (strptime_ymd e) as [d|]; [|congruence].
    unfold within.
    destruct (_ && _); rewrite IH; [|reflexivity].
    now rewrite <- app_assoc.
Qed.

Lemma get_options_chain_run (ticker : string) (c : ascii) (text : string)
      (option_type : option OptionType) (s : state World) :
  get_options_chain ticker (Some (String c text)) option_type s
  = (mkState
       (fst (provider_option_chain ticker (String c text) (world s)))
       (requests s ++ [FetchChain ticker (String c text)]),
     Return
       match snd (provider_option_chain ticker (String c text) (world s)) with
       | Return chain => (Some (side option_type chain), None)
       | Raise e => (None, Some (str e))
       end).
Proof.
  unfold get_options_chain, try_except, bind,
    option_chain.
  destruct (provider_option_chain ticker (String c text) (world s))
    as [w [chain|e]]; simpl; [|reflexivity].
  destruct option_type as [[|]|]; simpl; try reflexivity.
  now rewrite app_nil_r.
Qed.

Lemma get_options_chain_absent (ticker : string) (expiry : option string)
      (option_type : option OptionType) (s : state World) :
  truthy expiry = false ->
  get_options_chain ticker expiry option_type s
  = (s, Return (None, Some "No expiry date provided")).
Proof.
  destruct expiry as [[|c text]|]; simpl; try discriminate; reflexivity.
Qed.

Lemma get_options_chain_returns (ticker : string) (expiry : option string)
      (option_type : option OptionType) (s : state World) :
  exists s' r,
    get_options_chain ticker expiry option_type s = (s', Return r)
    /\ well_formed r.
Proof.
  destruct expiry as [[|c text]|].
  - do 2 eexists. split; [reflexivity|]. right. eauto.
  - rewrite get_options_chain_run. do 2 eexists. split; [reflexivity|].
    destruct (snd _); [left|right]; eauto.
  - do 2 eexists. split; [reflexivity|]. right. eauto.
Qed.

Lemma executor_map_returns {A B : Type} (f : A -> M World B) :
  (forall x s, exists s' y, f x s = (s', Return y)) ->
  forall items s, exists s' ys,
    executor_map f items s = (s', Return ys) /\ List.length ys = List.length items.
Proof.
  intros Hf. induction items as [|x items IH]; intros s; simpl.
  - exists s, []. split; reflexivity.
  - unfold bind. destruct (Hf x s) as (s1 & y & ->).
    destruct (IH s1) as (s2 & ys & -> & Hlen).
    exists s2, (y :: ys). simpl. now rewrite Hlen.
Qed.

Lemma collect_chains_successes (zipped : list (result * string))
      (acc : list DataFrame) :
  collect_chains zipped acc
  = acc ++ map (fun '(expiry, chain) => Pandas.assign_expiryDate expiry chain)
               (successes zipped).
Proof.
  revert acc.
  induction zipped as [|[[chain error] expiry] zipped IH]; intros acc; simpl.
  - now rewrite app_nil_r.
  - destruct chain as [chain|]; destruct (truthy error); rewrite IH;
      try reflexivity.
    now rewrite <- app_assoc.
Qed.

Lemma concat_collected (fetched : list (string * DataFrame)) :
  Pandas.concat
    (map (fun '(expiry, chain) => Pandas.assign_expiryDate expiry chain)
         fetched)
  = tagged_rows fetched.
Proof.
  unfold Pandas.concat, tagged_rows. now rewrite flat_map_concat_map.
Qed.


Lemma executor_map_chain_returns (ticker : string)
      (option_type : option OptionType) (valid : list string)
      (s : state World) :
  exists s' results,
    executor_map (fun exp => get_options_chain ticker (Some exp) option_type)
                 valid s = (s', Return results)
    /\ List.length results = List.length valid.
Proof.
  apply executor_map_returns. intros exp s0.
  destruct (get_options_chain_returns ticker (Some exp) option_type s0)
    as (s' & r & H & _).
  eauto.
Qed.

(** The whole of [get_filtered_options], exit by exit. *)
Lemma get_filtered_options_exits (ticker : string)
      (start_date end_date : option string)
      (strike_lower strike_upper : option Q)
      (option_type : option OptionType) (s : state World) :
  get_filtered_options ticker start_date end_date strike_lower strike_upper
                       option_type s
  = if negb (accepted start_date) then
      (s, Return (None, Some "Invalid start_date format. Use YYYY-MM-DD"))
    else if negb (accepted end_date) then
      (s, Return (None, Some "Invalid end_date format. Use YYYY-MM-DD"))
    else
      match options ticker s with
      | (s1, Raise e) =>
          (s1, Return (None, Some ("Failed to retrieve options data: "
                                     ++ str e)%string))
      | (s1, Return []) =>
          (s1, Return (None, Some ("No options available for "
                                     ++ ticker)%string))
      | (s1, Return ((_ :: _) as expirations)) =>
          match select_expirations (bound_of start_date) (bound_of end_date)
                                   expirations [] s1 with
          | (s2, Raise e) =>
              (s2, Return (None, Some ("Failed to retrieve options data: "
                                         ++ str e)%string))
          | (s2, Return []) =>
              (s2, Return (None, Some ("No options found for " ++ ticker
                                         ++ " within specified date range")%string))
          | (s2, Return ((_ :: _) as valid)) =>
              match executor_map
                      (fun exp => get_options_chain ticker (Some exp) option_type)
                      valid s2 with
              | (s3, Return results) =>
                  (s3, Return (merge_filter_sort ticker strike_lower
                                 strike_upper
                                 (collect_chains (combine results valid) [])))
              | (s3, Raise e) =>
                  (s3, Return (None, Some ("Failed to retrieve options data: "
                                             ++ str e)%string))
              end
          end
      end.
Proof.
  unfold get_filtered_options, try_except.
  rewrite !validate_date_run.
  destruct (accepted start_date) eqn:Hs; simpl; [|reflexivity].
  destruct (accepted end_date) eqn:He; simpl; [|reflexivity].
  unfold bind at 1.
  destruct (options ticker s) as [s1 [[|e0 exps]|e]]; try reflexivity.
  unfold bind at 1. rewrite (to_date_obj_run _ _ Hs).
  unfold bind at 1. rewrite (to_date_obj_run _ _ He).
  unfold bind at 1.
  destruct (select_expirations _ _ _ _ _) as [s2 [[|v0 valid]|e]];
    try reflexivity.
  unfold bind at 1.
  destruct (executor_map _ _ _) as [s3 [results|e]]; reflexivity.
Qed.

Lemma merge_filter_sort_run (ticker : string) (lo hi : option Q)
      (zipped : list (result * string)) :
  merge_filter_sort ticker lo hi (collect_chains zipped [])
  = match successes zipped with
    | [] => (None, Some ("No options found for " ++ ticker
                           ++ " matching criteria")%string)
    | _ :: _ =>
        (Some (filter_and_sort lo hi (tagged_rows (successes zipped))), None)
    end.
Proof.
  rewrite collect_chains_successes. simpl. rewrite <- concat_collected.
  destruct (successes zipped); reflexivity.
Qed.

(** A run that gets as far as the fetches returns what the merge makes
    of their results. *)
Lemma get_filtered_options_aggregates (ticker : string)
      (start_date end_date : option string) (lo hi : option Q)
      (option_type : option OptionType) (s s1 s2 s3 : state World)
      (expirations valid : list string) (results : list result) :
  accepted start_date = true -> accepted end_date = true ->
  options ticker s = (s1, Return expirations) ->
  select_expirations (bound_of start_date) (bound_of end_date)
                     expirations [] s1 = (s2, Return valid) ->
  valid <> [] ->
  executor_map (fun exp => get_options_chain ticker (Some exp) option_type)
               valid s2 = (s3, Return results) ->
  get_filtered_options ticker start_date end_date lo hi option_type s
  = (s3, Return (merge_filter_sort ticker lo hi
                   (collect_chains (combine results valid) []))).
Proof.
  intros Hs He Hopt Hsel Hne Hfetch.
  rewrite get_filtered_options_exits, Hs, He, Hopt. simpl.
  destruct expirations as [|e0 exps].
  - simpl in Hsel. injection Hsel as _ <-. contradiction.
  - rewrite Hsel. destruct valid as [|v0 valid]; [contradiction|].
    now rewrite Hfetch.
Qed.

(** A run that returns a frame got as far as the fetches, and the frame
    is the merge of their successes, filtered and sorted. *)
Lemma get_filtered_options_frame (ticker : string)
      (start_date end_date : option string) (lo hi : option Q)
      (option_type : option OptionType) (s s' : state World)
      (df : DataFrame) :
  get_filtered_options ticker start_date end_date lo hi option_type s
  = (s', Return (Some df, None)) ->
  exists s1 expirations valid results,
    options ticker s = (s1, Return expirations)
    /\ select_expirations (bound_of start_date) (bound_of end_date)
                          expirations [] s1 = (s1, Return valid)
    /\ executor_map
         (fun exp => get_options_chain ticker (Some exp) option_type)
         valid s1 = (s', Return results)
    /\ df = filter_and_sort lo hi
              (tagged_rows (successes (combine results valid))).
Proof.
  rewrite get_filtered_options_exits.
  destruct (accepted start_date); simpl; [|discriminate].
  destruct (accepted end_date); simpl; [|discriminate].
  destruct (options ticker s) as [s1 [[|e0 exps]|e]] eqn:Hopt;
    try discriminate.
  destruct (select_expirations _ _ _ _ _) as [s2 [[|v0 valid]|e]] eqn:Hsel;
    try discriminate.
  pose proof (select_expirations_state _ _ _ _ _ _ _ Hsel) as ->.
  destruct (executor_map _ _ _) as [s3 [results|e]] eqn:Hfetch;
    try discriminate.
  rewrite merge_filter_sort_run.
  destruct (successes _) eqn:Hsucc; [discriminate|].
  intros [= <- <-]. exists s1, (e0 :: exps), (v0 :: valid), results.
  rewrite Hsucc. auto.
Qed.

Lemma executor_map_requests (ticker : string)
      (option_type : option OptionType) (valid : list string)
      (s s' : state World) (results : list result) :
  Forall (fun e => strptime_ymd e <> None) valid ->
  executor_map (fun exp => get_options_chain ticker (Some exp) option_type)
               valid s = (s', Return results) ->
  requests s' = requests s ++ map (FetchChain ticker) valid.
Proof.
  intros Hall. revert s s' results.
  induction Hall as [|e valid He _ IH]; intros s s' results; simpl.
  - intros [= <- _]. now rewrite app_nil_r.
  - destruct e as [|c text]; [now contradiction He|].
    unfold bind at 1. rewrite get_options_chain_run.
    unfold bind at 1.
    destruct (executor_map _ valid _) as [s2 [ys|e]] eqn:Hrest;
      [|discriminate].
    intros [= <- _]. rewrite (IH _ _ _ Hrest). simpl.
    now rewrite <- app_assoc.
Qed.

(* ===================================================================== *)
(** ** The properties of the pipeline *)
(* ===================================================================== *)


(** C2. Selection of the expirations.  With date arguments that are
    absent or parse, and a provider list all of whose entries parse, the
    selection loop returns exactly the entries [e] with [start <= e]
    (when start is given) and [e <= end] (when end is given), in the
    order of the provider's list; the chains that the call then requests
    are those of the selected expirations, in that order; and from
    2025-01-17, 2025-02-21, 2025-03-21 with start 2025-02-01 and end
    2025-03-31 the loop selects 2025-02-21 and 2025-03-21. *)
Theorem expiration_selection (ticker : string)
      (start_date end_date : option string) (lo hi : option Q)
      (option_type : option OptionType) (s s1 : state World)
      (expirations : list string) :
  accepted start_date = true -> accepted end_date = true ->
  Forall (fun e => strptime_ymd e <> None) expirations ->
  select_expirations (bound_of start_date) (bound_of end_date)
                     expirations [] s1
  = (s1, Return (filter (in_date_range start_date end_date) expirations))
  /\ (options ticker s = (s1, Return expirations) ->
      exists s' r,
        get_filtered_options ticker start_date end_date lo hi option_type s
        = (s', Return r)
        /\ requests s'
           = requests s1
             ++ map (FetchChain ticker)
                    (filter (in_date_range start_date end_date) expirations))
  /\ select_expirations (bound_of (Some "2025-02-01"))
                        (bound_of (Some "2025-03-31"))
                        ["2025-01-17"; "2025-02-21"; "2025-03-21"] [] s1
     = (s1, Return ["2025-02-21"; "2025-03-21"]).
Proof.
  intros Hs He Hall.
  assert (Hsel : forall exps, Forall (fun e => strptime_ymd e <> None) exps ->
            select_expirations (bound_of start_date) (bound_of end_date)
                               exps [] s1
            = (s1, Return (filter (in_date_range start_date end_date) exps))).
  { intros exps H. now rewrite select_expirations_run. }
  split; [now apply Hsel|]. split.
  - intros Hopt.
    rewrite get_filtered_options_exits, Hs, He, Hopt. simpl.
    destruct expirations as [|e0 exps].
    + do 2 eexists. split; [reflexivity|]. simpl. now rewrite app_nil_r.
    + rewrite (Hsel _ Hall).
      assert (Hvalid : Forall (fun e => strptime_ymd e <> None)
                (filter (in_date_range start_date end_date) (e0 :: exps))).
      { rewrite Forall_forall in Hall |- *. intros e Hin.
        apply filter_In in Hin. apply Hall, Hin. }
      destruct (filter _ (e0 :: exps)) as [|v0 valid] eqn:Hf.
      * do 2 eexists. split; [reflexivity|]. simpl. now rewrite app_nil_r.
      * destruct (executor_map_chain_returns ticker option_type
                    (v0 :: valid) s1) as (s3 & results & Hfetch & _).
        rewrite Hfetch. do 2 eexists. split; [reflexivity|].
        eapply executor_map_requests; eassumption.
  - rewrite select_expirations_run; [reflexivity|].
    repeat constructor; discriminate.
Qed.

(** C3, as the code has it.  If [start_date] or [end_date] is a
    non-empty text (of ASCII characters) that [strptime] with the format
    "%Y-%m-%d" refuses, the call returns no frame and one of the two
    "Invalid ... format" messages, and the state it ends in is the state
    it started from: the provider's world is unchanged and no request
    has been logged.  The check is [strptime]'s and not the exact form
    YYYY-MM-DD: when both dates are absent, empty, or accepted by
    [strptime] (which also takes months and days of one digit and a day
    padded with a space), the call never returns either of the two
    messages. *)
Theorem malformed_date_rejected (ticker : string)
      (start_date end_date : option string) (lo hi : option Q)
      (option_type : option OptionType) (s : state World) :
  ascii_text start_date = true -> ascii_text end_date = true ->
  (malformed start_date = true \/ malformed end_date = true ->
   exists message,
     get_filtered_options ticker start_date end_date lo hi option_type s
     = (s, Return (None, Some message))
     /\ (malformed start_date = true ->
         message = "Invalid start_date format. Use YYYY-MM-DD")
     /\ (malformed start_date = false ->
         message = "Invalid end_date format. Use YYYY-MM-DD"))
  /\ (malformed start_date = false -> malformed end_date = false ->
      forall s' r,
        get_filtered_options ticker start_date end_date lo hi option_type s
        = (s', r) ->
        r <> Return (None, Some "Invalid start_date format. Use YYYY-MM-DD")
        /\ r <> Return (None,
                        Some "Invalid end_date format. Use YYYY-MM-DD")).
Proof.
  intros _ _. unfold malformed. split.
  - intros H. rewrite get_filtered_options_exits.
    destruct (accepted start_date); simpl in *.
    + destruct (accepted end_date); simpl in *.
      * destruct H; discriminate.
      * eexists. split; [reflexivity|]. split; [discriminate|reflexivity].
    + eexists. split; [reflexivity|]. split; [reflexivity|discriminate].
  - intros Hs He s' r H. rewrite get_filtered_options_exits in H.
    apply negb_false_iff in Hs, He. rewrite Hs, He in H. simpl in H.
    destruct (options ticker s) as [s1 [[|e0 exps]|e]];
      try (injection H as _ <-; simpl; split; discriminate).
    destruct (select_expirations _ _ _ _ _) as [s2 [[|v0 valid]|e]];
      try (injection H as _ <-; simpl; split; discriminate).
    destruct (executor_map _ _ _) as [s3 [results|e]];
      try (injection H as _ <-; simpl; split; discriminate).
    rewrite merge_filter_sort_run in H.
    destruct (successes _); injection H as _ <-; simpl; split; discriminate.
Qed.

(** C4. The order of the result.  A frame returned by the call is sorted
    by open interest descending, then by volume descending (missing
    values last); it is the merge of the run's successful fetches,
    filtered by the strike bounds and rearranged; and the rows tied with
    any given row on both keys stand in the frame in the order they have
    in the merge. *)
Theorem result_sorted_stable (ticker : string)
      (start_date end_date : option string) (lo hi : option Q)
      (option_type : option OptionType) (s s' : state World)
      (df : DataFrame) :
  get_filtered_options ticker start_date end_date lo hi option_type s
  = (s', Return (Some df, None)) ->
  StronglySorted oi_then_volume_desc df
  /\ (forall a b, Pandas.tied by_openInterest_volume a b = true
                  <-> same_keys a b)
  /\ exists s1 valid results,
       executor_map
         (fun exp => get_options_chain ticker (Some exp) option_type)
         valid s1 = (s', Return results)
       /\ Permutation df
            (filter (within_strike_boundsb lo hi)
                    (tagged_rows (successes (combine results valid))))
       /\ forall k,
            filter (Pandas.tied by_openInterest_volume k) df
            = filter (Pandas.tied by_openInterest_volume k)
                (filter (within_strike_boundsb lo hi)
                        (tagged_rows (successes (combine results valid)))).
Proof.
  intros H. apply get_filtered_options_frame in H.
  destruct H as (s1 & exps & valid & results & _ & _ & Hfetch & ->).
  split; [apply FilterFacts.filter_and_sort_sorted|].
  split; [apply FilterFacts.tied_same_keys|].
  exists s1, valid, results. split; [assumption|]. split.
  - apply FilterFacts.filter_and_sort_perm.
  - intros k. apply FilterFacts.filter_and_sort_stable.
Qed.

(** C5. The strike bounds.  In a run that reaches the fetches and in
    which a fetch succeeded, with [results] the pairs returned for the
    selected expirations [valid], the call returns a frame that holds
    exactly the rows of the merge whose strike [k] satisfies
    [strike_lower <= k] (when that bound is given) and
    [k <= strike_upper] (when that bound is given), each as often as the
    merge holds it: no row outside the bounds is returned and every row
    within them is retained; both bounds are inclusive and an absent
    bound constrains nothing.  Bounds 100 and 150 on rows with strikes
    90, 100, 125, 150, 200 keep the strikes 100, 125, 150. *)
Theorem strike_bounds_inclusive (ticker : string)
      (start_date end_date : option string) (lo hi : option Q)
      (option_type : option OptionType) (s s1 s2 s3 : state World)
      (expirations valid : list string) (results : list result) :
  accepted start_date = true -> accepted end_date = true ->
  options ticker s = (s1, Return expirations) ->
  select_expirations (bound_of start_date) (bound_of end_date)
                     expirations [] s1 = (s2, Return valid) ->
  valid <> [] ->
  executor_map (fun exp => get_options_chain ticker (Some exp) option_type)
               valid s2 = (s3, Return results) ->
  successes (combine results valid) <> [] ->
  (exists df,
      get_filtered_options ticker start_date end_date lo hi option_type s
      = (s3, Return (Some df, None))
      /\ (forall row,
             In row df
             <-> In row (tagged_rows (successes (combine results valid)))
                 /\ within_strike_bounds lo hi row)
      /\ Permutation df
           (filter (within_strike_boundsb lo hi)
                   (tagged_rows (successes (combine results valid))))
      /\ (forall row,
             In row (tagged_rows (successes (combine results valid))) ->
             (forall bound, lo = Some bound -> (strike row == bound)%Q ->
                            within_strike_bounds None hi row -> In row df)
             /\ (forall bound, hi = Some bound -> (strike row == bound)%Q ->
                               within_strike_bounds lo None row ->
                               In row df)))
  /\ (forall rows,
        map strike rows = [90%Q; 100%Q; 125%Q; 150%Q; 200%Q] ->
        map strike (apply_strike_filters (Some 100%Q) (Some 150%Q) rows)
        = [100%Q; 125%Q; 150%Q]
        /\ Permutation
             (map strike (filter_and_sort (Some 100%Q) (Some 150%Q) rows))
             [100%Q; 125%Q; 150%Q]).
Proof.
  intros Hs He Hopt Hsel Hne Hfetch Hsucc.
  split.
  - rewrite (get_filtered_options_aggregates _ _ _ lo hi _ _ _ _ _ _ _ _
               Hs He Hopt Hsel Hne Hfetch).
    rewrite merge_filter_sort_run.
    destruct (successes (combine results valid)) as [|f fetched] eqn:E;
      [contradiction|].
    eexists. split; [reflexivity|]. split; [|split].
    + intros row. apply FilterFacts.filter_and_sort_In.
    + apply FilterFacts.filter_and_sort_perm.
    + intros row Hrow. split; intros bound -> Heq [Hl Hh];
        apply FilterFacts.filter_and_sort_In; (split; [exact Hrow|]);
        split; intros k Hk; try (injection Hk as <-);
        try (now apply Hl); try (now apply Hh);
        rewrite Heq; apply Qle_refl.
  - intros rows Hrows.
    assert (Hkeep : map strike
                      (filter (within_strike_boundsb (Some 100%Q) (Some 150%Q))
                              rows)
                    = [100%Q; 125%Q; 150%Q]).
    { destruct rows as [|r1 [|r2 [|r3 [|r4 [|r5 [|r6 rows]]]]]];
        try discriminate.
      injection Hrows as H1 H2 H3 H4 H5.
      unfold within_strike_boundsb. simpl.
      rewrite H1, H2, H3, H4, H5. simpl. now rewrite H2, H3, H4. }
    split.
    + now rewrite FilterFacts.apply_strike_filters_filter.
    + rewrite <- Hkeep. apply Permutation_map.
      apply FilterFacts.filter_and_sort_perm.
Qed.

(** Within the exceptions below [Exception], the whole call returns. *)
Lemma get_filtered_options_returns (ticker : string)
      (start_date end_date : option string) (lo hi : option Q)
      (option_type : option OptionType) (s : state World) :
  exists s' r,
    get_filtered_options ticker start_date end_date lo hi option_type s
    = (s', Return r)
    /\ well_formed r.
Proof.
  rewrite get_filtered_options_exits.
  assert (Herr : forall (s0 : state World) msg,
             exists s' r, (s0, Return (None, Some msg)) = (s', Return r)
                          /\ well_formed r).
  { intros s0 msg. do 2 eexists. split; [reflexivity|]. right. eauto. }
  destruct (accepted start_date); simpl; [|apply Herr].
  destruct (accepted end_date); simpl; [|apply Herr].
  destruct (options ticker s) as [s1 [[|e0 exps]|e]]; try apply Herr.
  destruct (select_expirations _ _ _ _ _) as [s2 [[|v0 valid]|e]];
    try apply Herr.
  destruct (executor_map _ _ _) as [s3 [results|e]]; try apply Herr.
  rewrite merge_filter_sort_run.
  destruct (successes _); [apply Herr|].
  do 2 eexists. split; [reflexivity|]. left. eauto.
Qed.

(** C7. The side of the chain.  When the provider returns the chain of
    an expiration, [get_options_chain] returns its calls for option type
    "C", its puts for option type "P", and, when no option type is
    given, all its call rows followed by all its put rows. *)
Theorem option_type_side (ticker expiry : string) (s : state World)
      (w : World) (chain : Options) :
  truthy (Some expiry) = true ->
  provider_option_chain ticker expiry (world s) = (w, Return chain) ->
  get_options_chain ticker (Some expiry) (Some C) s
  = (mkState w (requests s ++ [FetchChain ticker expiry]),
     Return (Some (calls chain), None))
  /\ get_options_chain ticker (Some expiry) (Some P) s
     = (mkState w (requests s ++ [FetchChain ticker expiry]),
        Return (Some (puts chain), None))
  /\ get_options_chain ticker (Some expiry) None s
     = (mkState w (requests s ++ [FetchChain ticker expiry]),
        Return (Some (calls chain ++ puts chain), None)).
Proof.
  intros Ht Hp. destruct expiry as [|c text]; [discriminate|].
  rewrite !get_options_chain_run, Hp. simpl. auto.
Qed.

(** C8. An empty selection is not an error of the selection stage.
    When the provider lists expirations (all of which parse), the date
    arguments are absent or parse, and no listed expiration falls within
    the range, the selection loop of lines 184-189 ends normally with
    the empty list: it does not raise and it touches neither the state
    nor the provider.  What to make of the empty selection is decided by
    the code that follows the loop (lines 191-192): the call returns no
    frame together with the message "No options found for <ticker>
    within specified date range", having sent the listing request and no
    chain request. *)
Theorem empty_selection_reported (ticker : string)
      (start_date end_date : option string) (lo hi : option Q)
      (option_type : option OptionType) (s s1 : state World)
      (expirations : list string) :
  accepted start_date = true -> accepted end_date = true ->
  options ticker s = (s1, Return expirations) ->
  expirations <> [] ->
  Forall (fun e => strptime_ymd e <> None) expirations ->
  filter (in_date_range start_date end_date) expirations = [] ->
  select_expirations (bound_of start_date) (bound_of end_date)
                     expirations [] s1 = (s1, Return [])
  /\ get_filtered_options ticker start_date end_date lo hi option_type s
     = (s1, Return (None, Some ("No options found for " ++ ticker
                                  ++ " within specified date range")%string))
  /\ requests s1 = requests s ++ [ListExpirations ticker].
Proof.
  intros Hs He Hopt Hne Hall Hnone.
  assert (Hsel : select_expirations (bound_of start_date)
                   (bound_of end_date) expirations [] s1 = (s1, Return [])).
  { rewrite select_expirations_run by assumption. now rewrite Hnone. }
  split; [exact Hsel|]. split.
  - rewrite get_filtered_options_exits, Hs, He, Hopt. simpl.
    destruct expirations as [|e0 exps]; [contradiction|].
    now rewrite Hsel.
  - unfold options in Hopt.
    destruct (provider_options ticker (world s)) as [w r].
    injection Hopt as <- _. reflexivity.
Qed.

(** C10. No expiry, no request.  Called with [expiry] absent ([None] or
    the empty string), [get_options_chain] returns no frame together with
    the message "No expiry date provided" and ends in the state it
    started from: nothing was asked of the provider. *)
Theorem no_expiry_no_request (ticker : string)
      (option_type : option OptionType) (s : state World) :
  get_options_chain ticker None option_type s
  = (s, Return (None, Some "No expiry date provided"))
  /\ get_options_chain ticker (Some "") option_type s
     = (s, Return (None, Some "No expiry date provided")).
Proof. split; reflexivity. Qed.

End Runs.

(* ===================================================================== *)
(** ** The properties at work on the sample provider *)
(* ===================================================================== *)

Lemma sample_parses :
  Forall (fun e => strptime_ymd e <> None)
         ["2025-01-17"; "2025-02-21"; "2025-03-21"].
Proof. repeat constructor; discriminate. Defined.


Lemma expiration_selection_sample :
  exists s' r,
    Sample.run_filtered "AAPL" (Some "2025-02-01") (Some "2025-03-31")
                        None None None Sample.start
    = (s', Return r)
    /\ requests s'
       = [ListExpirations "AAPL"; FetchChain "AAPL" "2025-02-21";
          FetchChain "AAPL" "2025-03-21"].
Proof.
  destruct (expiration_selection nat Sample.list_expirations
              Sample.fetch_chain Sample.message
              "AAPL" (Some "2025-02-01") (Some "2025-03-31") None None None
              Sample.start Sample.listed
              ["2025-01-17"; "2025-02-21"; "2025-03-21"]
              eq_refl eq_refl sample_parses)
    as (_ & Hrun & _).
  exact (Hrun eq_refl).
Defined.

Lemma malformed_date_rejected_sample :
  exists message,
    Sample.run_filtered "AAPL" (Some "02/01/2025") None None None None
                        Sample.start
    = (Sample.start, Return (None, Some message))
    /\ message = "Invalid start_date format. Use YYYY-MM-DD".
Proof.
  destruct (malformed_date_rejected nat Sample.list_expirations
              Sample.fetch_chain Sample.message
              "AAPL" (Some "02/01/2025") None None None None Sample.start
              eq_refl eq_refl)
    as [Hrefused _].
  destruct (Hrefused (or_introl eq_refl)) as (message & Hrun & Hstart & _).
  exists message. split; [exact Hrun|]. apply Hstart. reflexivity.
Defined.

(** C3, as the claim has it, fails: "2025-2-1" is provided and is not of
    the exact form YYYY-MM-DD, yet [strptime] accepts it, and the call
    goes on to the provider and returns a frame. *)
Lemma exact_form_is_not_required :
  ~ refuses_all_but_the_exact_form nat Sample.list_expirations
      Sample.fetch_chain Sample.message.
Proof.
  intros Hclaim.
  destruct (Hclaim "AAPL" (Some "2025-2-1") None None None None
                   Sample.start
                   (or_introl (ex_intro _ "2025-2-1" (conj eq_refl eq_refl))))
    as (message & Hrun).
  vm_compute in Hrun. discriminate Hrun.
Qed.

Lemma sample_between_100_and_150 :
  Sample.run_filtered "AAPL" (Some "2025-02-01") None
                      (Some 100%Q) (Some 150%Q) None Sample.start
  = (Sample.fetched, Return (Some Sample.between_100_and_150, None)).
Proof. vm_compute. reflexivity. Defined.

Lemma result_sorted_stable_sample :
  StronglySorted oi_then_volume_desc Sample.between_100_and_150.
Proof.
  destruct (result_sorted_stable nat Sample.list_expirations
              Sample.fetch_chain Sample.message
              "AAPL" (Some "2025-02-01") None (Some 100%Q) (Some 150%Q) None
              Sample.start Sample.fetched Sample.between_100_and_150
              sample_between_100_and_150)
    as [Hsorted _].
  exact Hsorted.
Defined.

Lemma strike_bounds_inclusive_sample :
  exists df,
    Sample.run_filtered "AAPL" (Some "2025-02-01") None
                        (Some 100%Q) (Some 150%Q) None Sample.start
    = (Sample.fetched, Return (Some df, None))
    /\ Permutation df
         (filter (within_strike_boundsb (Some 100%Q) (Some 150%Q))
                 (tagged_rows
                    (successes (combine Sample.february_march_results
                                        Sample.february_march)))).
Proof.
  destruct (strike_bounds_inclusive nat Sample.list_expirations
              Sample.fetch_chain Sample.message
              "AAPL" (Some "2025-02-01") None (Some 100%Q) (Some 150%Q) None
              Sample.start Sample.listed Sample.listed Sample.fetched
              ["2025-01-17"; "2025-02-21"; "2025-03-21"]
              Sample.february_march Sample.february_march_results
              eq_refl eq_refl eq_refl eq_refl ltac:(discriminate) eq_refl
              ltac:(discriminate))
    as [(df & Hrun & _ & Hperm & _) _].
  exists df. split; [exact Hrun|exact Hperm].
Defined.

Lemma option_type_side_sample :
  Sample.run_chain "AAPL" (Some "2025-01-17") (Some C) Sample.start
  = (mkState 1%nat [FetchChain "AAPL" "2025-01-17"],
     Return (Some (calls Sample.january), None))
  /\ Sample.run_chain "AAPL" (Some "2025-01-17") (Some P) Sample.start
     = (mkState 1%nat [FetchChain "AAPL" "2025-01-17"],
        Return (Some (puts Sample.january), None))
  /\ Sample.run_chain "AAPL" (Some "2025-01-17") None Sample.start
     = (mkState 1%nat [FetchChain "AAPL" "2025-01-17"],
        Return (Some (calls Sample.january ++ puts Sample.january), None)).
Proof.
  exact (option_type_side nat Sample.fetch_chain "AAPL" "2025-01-17"
           Sample.start 1%nat Sample.january eq_refl eq_refl).
Defined.

Lemma empty_selection_reported_sample :
  select_expirations nat Sample.message
    (bound_of (Some "2026-01-01")) (bound_of None)
    ["2025-01-17"; "2025-02-21"; "2025-03-21"] [] Sample.listed
  = (Sample.listed, Return [])
  /\ Sample.run_filtered "AAPL" (Some "2026-01-01") None None None None
                         Sample.start
     = (Sample.listed,
        Return (None,
                Some "No options found for AAPL within specified date range"))
  /\ requests Sample.listed = [ListExpirations "AAPL"].
Proof.
  exact (empty_selection_reported nat Sample.list_expirations
           Sample.fetch_chain Sample.message
           "AAPL" (Some "2026-01-01") None None None None
           Sample.start Sample.listed
           ["2025-01-17"; "2025-02-21"; "2025-03-21"]
           eq_refl eq_refl eq_refl ltac:(discriminate)
           sample_parses eq_refl).
Defined.


(* ===================================================================== *)
(** ** Parsing dates: sample evaluations *)
(* ===================================================================== *)

Example strptime_plain :
  strptime_ymd "2025-02-21" = Some (mkDate 2025 2 21).
Proof. reflexivity. Qed.

Example strptime_short_fields :
  strptime_ymd "2025-2-1" = Some (mkDate 2025 2 1).
Proof. reflexivity. Qed.

Example strptime_rejects :
  map strptime_ymd
      ["2025/02/21"; "21-02-2025"; "2025-02-30"; "2025-13-01";
       "2025-02-21 "; "2025-02-217"; "0000-01-01"; ""; "2025-00-10"]
  = [None; None; None; None; None; None; None; None; None].
Proof. reflexivity. Qed.

Example strptime_leap_day :
  (strptime_ymd "2024-02-29", strptime_ymd "2025-02-29", strptime_ymd "1900-02-29")
  = (Some (mkDate 2024 2 29), None, None).
Proof. reflexivity. Qed.


(* ===================================================================== *)
(** ** Further properties of the options pipeline *)
(* ===================================================================== *)

Section PipelineExtras.

Variable World : Type.
Variable provider_options :
  string -> World -> World * outcome (list string).
Variable provider_option_chain :
  string -> string -> World -> World * outcome Options.
Variable strptime_message : string -> string.

Local Abbreviation select_expirations :=
  (select_expirations World strptime_message).
Local Abbreviation options := (options World provider_options).
Local Abbreviation get_options_chain :=
  (get_options_chain World provider_option_chain).
Local Abbreviation get_filtered_options :=
  (get_filtered_options World provider_options provider_option_chain
                        strptime_message).

Lemma options_requests (ticker : string) (s s1 : state World)
      (r : outcome (list string)) :
  options ticker s = (s1, r) ->
  requests s1 = requests s ++ [ListExpirations ticker].
Proof.
  unfold options.
  destruct (provider_options ticker (world s)) as [w r0].
  intros [= <- _]. reflexivity.
Qed.

(** What a selection that returns has returned, and that it has parsed
    every listed expiration on the way. *)
Lemma select_expirations_returned (start_date end_date : option string)
      (exps acc valid : list string) (s s' : state World) :
  select_expirations (bound_of start_date) (bound_of end_date) exps acc s
  = (s', Return valid) ->
  valid = acc ++ filter (in_date_range start_date end_date) exps
  /\ Forall (fun e => strptime_ymd e <> None) exps.
Proof.
  revert acc. induction exps as [|e exps IH]; intros acc; simpl.
  - intros [= _ <-]. now rewrite app_nil_r.
  - unfold bind at 1. rewrite strptime_date_run. unfold in_date_range at 1.
    destruct (strptime_ymd e) as [d|] eqn:Hd; [|discriminate].
    unfold within.
    destruct (_ && _); intros H; apply IH in H; destruct H as [-> Hall];
      (split; [|constructor; [congruence|assumption]]).
    + now rewrite <- app_assoc.
    + reflexivity.
Qed.

(** The first listed expiration that does not parse stops the loop. *)
Lemma select_expirations_raises (a b : option date)
      (good : list string) (bad : string) (rest acc : list string)
      (s : state World) :
  Forall (fun e => strptime_ymd e <> None) good ->
  strptime_ymd bad = None ->
  select_expirations a b (good ++ bad :: rest) acc s
  = (s, Raise (ValueError (strptime_message bad))).
Proof.
  intros Hgood Hbad. revert acc.
  induction Hgood as [|e good He _ IH]; intros acc; simpl.
  - unfold bind at 1. rewrite strptime_date_run, Hbad. reflexivity.
  - unfold bind at 1. rewrite strptime_date_run.
    destruct (strptime_ymd e) as [d|]; [|congruence].
    destruct (within a b d); apply IH.
Qed.

(** Every success of the fetches is an answer of the provider for that
    ticker and expiration, cut down to the side asked for. *)
Lemma successes_from_provider (ticker : string)
      (option_type : option OptionType) (valid : list string)
      (s s' : state World) (results : list result) :
  executor_map (fun exp => get_options_chain ticker (Some exp) option_type)
               valid s = (s', Return results) ->
  forall expiry chain,
    In (expiry, chain) (successes (combine results valid)) ->
    exists w w' answer,
      provider_option_chain ticker expiry w = (w', Return answer)
      /\ chain = side option_type answer.
Proof.
  revert s s' results.
  induction valid as [|e valid IH]; intros s s' results; simpl.
  - intros [= _ <-]. simpl. contradiction.
  - unfold bind at 1.
    destruct (get_options_chain ticker (Some e) option_type s)
      as [s1 [r|x]] eqn:Hone; [|discriminate].
    unfold bind at 1.
    destruct (executor_map _ valid s1) as [s2 [rs|x]] eqn:Hrest;
      [|discriminate].
    intros [= _ <-] expiry chain. simpl.
    destruct e as [|c text].
    + injection Hone as _ <-. simpl. eapply IH, Hrest.
    + rewrite get_options_chain_run in Hone. injection Hone as _ <-.
      destruct (provider_option_chain ticker (String c text) (world s))
        as [w1 [answer|x]] eqn:Hp; simpl.
      * intros [[= <- <-]|Hin]; [eauto|]. eapply IH; eassumption.
      * eapply IH, Hrest.
Qed.

Lemma successes_expiry (results : list result) (valid : list string)
      (expiry : string) (chain : DataFrame) :
  In (expiry, chain) (successes (combine results valid)) -> In expiry valid.
Proof.
  intros H. apply FilterFacts.successes_In in H.
  destruct H as (error & H & _). eapply in_combine_r, H.
Qed.

(** X1. A ticker without expirations.  When the date arguments pass the
    validation and the provider lists no expiration, the call returns no
    frame and the message "No options available for <ticker>"; the
    listing is the only request sent. *)
Theorem no_expirations_listed (ticker : string)
      (start_date end_date : option string) (lo hi : option Q)
      (option_type : option OptionType) (s s1 : state World) :
  accepted start_date = true -> accepted end_date = true ->
  options ticker s = (s1, Return []) ->
  get_filtered_options ticker start_date end_date lo hi option_type s
  = (s1, Return (None, Some ("No options available for " ++ ticker)%string))
  /\ requests s1 = requests s ++ [ListExpirations ticker].
Proof.
  intros Hs He Hopt. split.
  - rewrite get_filtered_options_exits, Hs, He, Hopt. reflexivity.
  - eapply options_requests, Hopt.
Qed.

(** X2. A listed expiration that does not parse.  When the provider's
    list holds an entry that [strptime] refuses, the call fetches no
    chain at all, also not for the entries before it or for entries
    outside the range: it returns no frame and the message "Failed to
    retrieve options data: " followed by the text of the [ValueError]
    for the first such entry. *)
Theorem unparsable_expiration_aborts (ticker : string)
      (start_date end_date : option string) (lo hi : option Q)
      (option_type : option OptionType) (s s1 : state World)
      (good : list string) (bad : string) (rest : list string) :
  accepted start_date = true -> accepted end_date = true ->
  options ticker s = (s1, Return (good ++ bad :: rest)) ->
  Forall (fun e => strptime_ymd e <> None) good ->
  strptime_ymd bad = None ->
  get_filtered_options ticker start_date end_date lo hi option_type s
  = (s1, Return (None, Some ("Failed to retrieve options data: "
                               ++ strptime_message bad)%string))
  /\ requests s1 = requests s ++ [ListExpirations ticker].
Proof.
  intros Hs He Hopt Hgood Hbad. split; [|eapply options_requests, Hopt].
  rewrite get_filtered_options_exits, Hs, He, Hopt. simpl.
  pose proof (select_expirations_raises (bound_of start_date)
                (bound_of end_date) good bad rest [] s1 Hgood Hbad) as Hr.
  destruct good as [|g good]; simpl app in *; rewrite Hr; reflexivity.
Qed.

(** X3. An empty date text is an absent date.  The call with [""] for
    [start_date] or for [end_date] is the call with [None] there: the
    empty text is neither refused as malformed nor used as a bound. *)
Theorem empty_date_is_absent (ticker : string)
      (other : option string) (lo hi : option Q)
      (option_type : option OptionType) (s : state World) :
  get_filtered_options ticker (Some "") other lo hi option_type s
  = get_filtered_options ticker None other lo hi option_type s
  /\ get_filtered_options ticker other (Some "") lo hi option_type s
     = get_filtered_options ticker other None lo hi option_type s.
Proof.
  split; rewrite !get_filtered_options_exits; reflexivity.
Qed.


(** X5. The rows lie within the date range.  Every row of a returned
    frame carries as [expiryDate] an expiration that the provider listed
    for the ticker in this very call and that lies within the date
    range. *)
Theorem rows_within_date_range (ticker : string)
      (start_date end_date : option string) (lo hi : option Q)
      (option_type : option OptionType) (s s' : state World)
      (df : DataFrame) :
  get_filtered_options ticker start_date end_date lo hi option_type s
  = (s', Return (Some df, None)) ->
  exists s1 expirations,
    options ticker s = (s1, Return expirations)
    /\ forall row, In row df ->
         exists expiry,
           expiryDate row = Some expiry
           /\ In expiry expirations
           /\ in_date_range start_date end_date expiry = true.
Proof.
  intros H. apply get_filtered_options_frame in H.
  destruct H as (s1 & exps & valid & results & Hopt & Hsel & _ & ->).
  exists s1, exps. split; [exact Hopt|].
  apply select_expirations_returned in Hsel. destruct Hsel as [Hvalid _].
  simpl in Hvalid.
  intros row Hrow. apply FilterFacts.filter_and_sort_In in Hrow.
  destruct Hrow as [Hrow _]. apply FilterFacts.tagged_rows_In in Hrow.
  destruct Hrow as (expiry & chain & r0 & Hin & _ & ->).
  exists expiry. split; [reflexivity|].
  apply successes_expiry in Hin. rewrite Hvalid in Hin.
  apply filter_In in Hin. exact Hin.
Qed.

(** X6. An empty frame is not an error.  In a run in which some fetch
    succeeded, strike bounds that no fetched row satisfies make the call
    return the empty frame without a message; only the lack of any
    successful fetch is reported as an error. *)
Theorem empty_frame_is_not_an_error (ticker : string)
      (start_date end_date : option string) (lo hi : option Q)
      (option_type : option OptionType) (s s1 s2 s3 : state World)
      (expirations valid : list string) (results : list result) :
  accepted start_date = true -> accepted end_date = true ->
  options ticker s = (s1, Return expirations) ->
  select_expirations (bound_of start_date) (bound_of end_date)
                     expirations [] s1 = (s2, Return valid) ->
  valid <> [] ->
  executor_map (fun exp => get_options_chain ticker (Some exp) option_type)
               valid s2 = (s3, Return results) ->
  successes (combine results valid) <> [] ->
  (forall row, In row (tagged_rows (successes (combine results valid))) ->
               ~ within_strike_bounds lo hi row) ->
  get_filtered_options ticker start_date end_date lo hi option_type s
  = (s3, Return (Some [], None)).
Proof.
  intros Hs He Hopt Hsel Hne Hfetch Hsucc Hout.
  rewrite (get_filtered_options_aggregates _ _ _ _ _ _ _ lo hi _ _ _ _ _ _ _ _
             Hs He Hopt Hsel Hne Hfetch).
  rewrite merge_filter_sort_run.
  destruct (successes (combine results valid)) as [|f fetched] eqn:E;
    [contradiction|].
  destruct (filter_and_sort lo hi (tagged_rows (f :: fetched)))
    as [|row df] eqn:Hdf; [reflexivity|].
  exfalso.
  assert (Hin : In row (filter_and_sort lo hi (tagged_rows (f :: fetched))))
    by (rewrite Hdf; now left).
  apply FilterFacts.filter_and_sort_In in Hin. destruct Hin as [Hin Hb].
  exact (Hout row Hin Hb).
Qed.

(** X7. The rows are the provider's, of the side asked for.  Every row
    of a returned frame is a row of a chain that the provider returned
    for this ticker and for the row's expiration: a call row for option
    type "C", a put row for "P", either when no type is given; the call
    adds nothing to it but the [expiryDate] column. *)
Theorem rows_from_provider (ticker : string)
      (start_date end_date : option string) (lo hi : option Q)
      (option_type : option OptionType) (s s' : state World)
      (df : DataFrame) :
  get_filtered_options ticker start_date end_date lo hi option_type s
  = (s', Return (Some df, None)) ->
  forall row, In row df ->
    exists expiry w w' answer r0,
      provider_option_chain ticker expiry w = (w', Return answer)
      /\ In r0 match option_type with
               | Some C => calls answer
               | Some P => puts answer
               | None => calls answer ++ puts answer
               end
      /\ row = Pandas.set_expiryDate expiry r0.
Proof.
  intros H. apply get_filtered_options_frame in H.
  destruct H as (s1 & exps & valid & results & _ & _ & Hfetch & ->).
  intros row Hrow. apply FilterFacts.filter_and_sort_In in Hrow.
  destruct Hrow as [Hrow _]. apply FilterFacts.tagged_rows_In in Hrow.
  destruct Hrow as (expiry & chain & r0 & Hin & Hr0 & ->).
  destruct (successes_from_provider _ _ _ _ _ _ Hfetch _ _ Hin)
    as (w & w' & answer & Hp & ->).
  exists expiry, w, w', answer, r0. auto.
Qed.

(** X8. A wider range selects more.  For one list of expirations, a
    range that starts no later and ends no earlier selects every
    expiration that the narrower range selects. *)
Theorem wider_range_selects_more
      (start_date end_date wide_start wide_end : option string)
      (expirations valid wide_valid : list string)
      (s s1 s2 : state World) :
  starts_no_later wide_start start_date ->
  ends_no_earlier wide_end end_date ->
  select_expirations (bound_of start_date) (bound_of end_date)
                     expirations [] s = (s1, Return valid) ->
  select_expirations (bound_of wide_start) (bound_of wide_end)
                     expirations [] s = (s2, Return wide_valid) ->
  incl valid wide_valid.
Proof.
  unfold starts_no_later, ends_no_earlier.
  intros Hstart Hend Hn Hw.
  apply select_expirations_returned in Hn, Hw.
  destruct Hn as [-> _], Hw as [-> _]. simpl.
  intros e He. apply filter_In in He. destruct He as [Hin He].
  apply filter_In. split; [exact Hin|].
  unfold in_date_range in *.
  destruct (strptime_ymd e) as [d|]; [|discriminate].
  apply andb_true_iff in He. destruct He as [H1 H2].
  apply andb_true_iff. split.
  - destruct (bound_of wide_start) as [a'|]; [|reflexivity].
    destruct (bound_of start_date) as [a|]; [|contradiction].
    eapply DateFacts.date_leb_trans; eassumption.
  - destruct (bound_of wide_end) as [b'|]; [|reflexivity].
    destruct (bound_of end_date) as [b|]; [|contradiction].
    eapply DateFacts.date_leb_trans; eassumption.
Qed.

End PipelineExtras.

(* ===================================================================== *)
(** ** Properties of the single-call accessors *)
(* ===================================================================== *)

Lemma head_prefix {A : Type} (n : Z) (df : list A) :
  exists dropped, df = head n df ++ dropped.
Proof.
  unfold head. destruct (0 <=? n)%Z.
  - exists (skipn (Z.to_nat n) df). symmetry. apply firstn_skipn.
  - exists (skipn (List.length df - Z.to_nat (- n)) df).
    symmetry. apply firstn_skipn.
Qed.

Lemma head_length {A : Type} (n : Z) (df : list A) :
  List.length (head n df) = head_size n (List.length df).
Proof.
  unfold head, head_size. destruct (0 <=? n)%Z.
  - apply length_firstn.
  - rewrite length_firstn. lia.
Qed.

Section AccessorFacts.

Variable World : Type.
Variable Dict : Type.
Variable Row : Type.
Variable provider_dict : endpoint -> World -> World * outcome Dict.
Variable provider_frame :
  endpoint -> World -> World * outcome (option (list Row)).
Variable sort_index_descending : list Row -> list Row.

Local Abbreviation call_frame := (call_frame World Row provider_frame).
Local Abbreviation get_ticker_info :=
  (get_ticker_info World Dict provider_dict).
Local Abbreviation get_calendar := (get_calendar World Dict provider_dict).
Local Abbreviation get_recommendations :=
  (get_recommendations World Row provider_frame).
Local Abbreviation get_upgrades_downgrades :=
  (get_upgrades_downgrades World Row provider_frame sort_index_descending).
Local Abbreviation get_price_history :=
  (get_price_history World Row provider_frame).
Local Abbreviation get_financial_statements :=
  (get_financial_statements World Row provider_frame).
Local Abbreviation get_institutional_holders :=
  (get_institutional_holders World Row provider_frame).
Local Abbreviation get_earnings_history :=
  (get_earnings_history World Row provider_frame).
Local Abbreviation get_insider_trades :=
  (get_insider_trades World Row provider_frame).

Lemma call_frame_run (ep : endpoint) (s : Session World) :
  call_frame ep s
  = (after_call ep (fst (provider_frame ep (fst (world s)))) s,
     snd (provider_frame ep (fst (world s)))).
Proof.
  unfold call_frame. destruct (provider_frame ep (fst (world s))).
  reflexivity.
Qed.

(** The shape the head-limited accessors share. *)
Lemma limited_run (ep : endpoint) (n : Z) (post : list Row -> list Row)
      (s : Session World) (w : World) (df : option (list Row)) :
  provider_frame ep (fst (world s)) = (w, Return df) ->
  try_except
    (bind (call_frame ep)
          (fun df => ret match df with
                         | Some df => Some (head n (post df))
                         | None => None
                         end))
    (fun _ => ret None) s
  = (after_call ep w s,
     Return match df with
            | Some df => Some (head n (post df))
            | None => None
            end).
Proof.
  intros Hp. unfold try_except, bind. rewrite call_frame_run, Hp.
  reflexivity.
Qed.

(** X9. The head-limited accessors.  When the provider returns a frame,
    [get_recommendations], [get_earnings_history] and
    [get_insider_trades] return its leading rows, in the provider's
    order and unchanged: as many as the limit says (5, 12 and 30 when
    the limit is omitted), all of them when the frame is shorter, none
    for limit 0, and for a negative limit all but the last [-limit]
    rows.  One call is made. *)
Theorem head_limited_accessors (ticker : string) (limit : option Z)
      (s : Session World) (w : World) (df : list Row) :
  (provider_frame (GetRecommendations ticker) (fst (world s))
   = (w, Return (Some df)) ->
   exists kept dropped,
     get_recommendations ticker limit s
     = (after_call (GetRecommendations ticker) w s, Return (Some kept))
     /\ df = kept ++ dropped
     /\ List.length kept
        = head_size (or_default 5%Z limit) (List.length df))
  /\ (provider_frame (GetEarningsHistory ticker) (fst (world s))
      = (w, Return (Some df)) ->
      exists kept dropped,
        get_earnings_history ticker limit s
        = (after_call (GetEarningsHistory ticker) w s, Return (Some kept))
        /\ df = kept ++ dropped
        /\ List.length kept
           = head_size (or_default 12%Z limit) (List.length df))
  /\ (provider_frame (GetInsiderTransactions ticker) (fst (world s))
      = (w, Return (Some df)) ->
      exists kept dropped,
        get_insider_trades ticker limit s
        = (after_call (GetInsiderTransactions ticker) w s,
           Return (Some kept))
        /\ df = kept ++ dropped
        /\ List.length kept
           = head_size (or_default 30%Z limit) (List.length df)).
Proof.
  assert (Hshape : forall ep n,
            provider_frame ep (fst (world s)) = (w, Return (Some df)) ->
            exists kept dropped,
              try_except
                (bind (call_frame ep)
                      (fun df => ret match df with
                                     | Some df => Some (head n df)
                                     | None => None
                                     end))
                (fun _ => ret None) s
              = (after_call ep w s, Return (Some kept))
              /\ df = kept ++ dropped
              /\ List.length kept = head_size n (List.length df)).
  { intros ep n Hp. destruct (head_prefix n df) as [dropped Hd].
    exists (head n df), dropped. split; [|split].
    - exact (limited_run ep n (fun x => x) s w (Some df) Hp).
    - exact Hd.
    - apply head_length. }
  split; [|split]; intros Hp; apply (Hshape _ _ Hp).
Qed.

Section MostRecent.

(** The index of the frame of upgrades and downgrades, and what
    [sort_index(ascending=False)] promises: the same rows, latest
    first. *)
Variable grade_date : Row -> Z.
Hypothesis sort_index_permutes :
  forall df, Permutation (sort_index_descending df) df.
Hypothesis sort_index_sorts :
  forall df,
    StronglySorted (fun a b => (grade_date b <= grade_date a)%Z)
                   (sort_index_descending df).

Lemma sorted_app_order (R : Row -> Row -> Prop) (l1 l2 : list Row) :
  StronglySorted R (l1 ++ l2) ->
  forall a b, In a l1 -> In b l2 -> R a b.
Proof.
  induction l1 as [|x l1 IH]; simpl; intros Hs a b Ha Hb; [contradiction|].
  apply StronglySorted_inv in Hs. destruct Hs as [Hs Hx].
  destruct Ha as [<-|Ha]; [|eapply IH; eassumption].
  rewrite Forall_forall in Hx. apply Hx, in_or_app. now right.
Qed.

Lemma sorted_app_left (R : Row -> Row -> Prop) (l1 l2 : list Row) :
  StronglySorted R (l1 ++ l2) -> StronglySorted R l1.
Proof.
  induction l1 as [|x l1 IH]; simpl; intros Hs; [constructor|].
  apply StronglySorted_inv in Hs. destruct Hs as [Hs Hx].
  constructor; [now apply IH|].
  rewrite Forall_forall in Hx |- *. intros y Hy.
  apply Hx, in_or_app. now left.
Qed.

(** X10. The most recent upgrades and downgrades.  With a limit that is
    not negative (5 when omitted) and a frame from the provider,
    [get_upgrades_downgrades] returns that many of its rows, or all of
    them when the frame is shorter; the rows returned are sorted by
    grade date, latest first, and none of the rows left out is more
    recent than any row returned. *)
Theorem upgrades_downgrades_most_recent (ticker : string)
      (limit : option Z) (s : Session World) (w : World) (df : list Row) :
  (0 <= or_default 5%Z limit)%Z ->
  provider_frame (GetUpgradesDowngrades ticker) (fst (world s))
  = (w, Return (Some df)) ->
  exists kept dropped,
    get_upgrades_downgrades ticker limit s
    = (after_call (GetUpgradesDowngrades ticker) w s, Return (Some kept))
    /\ Permutation (kept ++ dropped) df
    /\ List.length kept
       = Nat.min (Z.to_nat (or_default 5%Z limit)) (List.length df)
    /\ StronglySorted (fun a b => (grade_date b <= grade_date a)%Z) kept
    /\ forall a b, In a kept -> In b dropped ->
                   (grade_date b <= grade_date a)%Z.
Proof.
  intros Hn Hp.
  set (n := or_default 5%Z limit) in *.
  set (sorted := sort_index_descending df).
  exists (head n sorted), (skipn (Z.to_nat n) sorted).
  assert (Hhead : head n sorted = firstn (Z.to_nat n) sorted).
  { unfold head. apply Z.leb_le in Hn. now rewrite Hn. }
  assert (Hsorted : StronglySorted
                      (fun a b => (grade_date b <= grade_date a)%Z)
                      (head n sorted ++ skipn (Z.to_nat n) sorted)).
  { rewrite Hhead, firstn_skipn. apply sort_index_sorts. }
  split; [|split; [|split; [|split]]].
  - exact (limited_run (GetUpgradesDowngrades ticker) n
             sort_index_descending s w (Some df) Hp).
  - rewrite Hhead, firstn_skipn. apply sort_index_permutes.
  - rewrite head_length. unfold head_size.
    apply Z.leb_le in Hn. rewrite Hn.
    unfold sorted. now rewrite (Permutation_length (sort_index_permutes df)).
  - eapply sorted_app_left, Hsorted.
  - eapply sorted_app_order, Hsorted.
Qed.

End MostRecent.

(** X11. The financial statements, when the provider answers.  If the
    provider answers every statement call for the ticker, the accessor
    makes the six statement calls, in the order income, balance, cash
    and, for each, annual before quarterly, whichever statement is asked
    for; what it returns is the provider's answer to the call for the
    statement type and frequency asked for ("income" and "quarterly"
    when omitted). *)
Theorem financial_statements_fetches_all (ticker : string)
      (statement_type : option StatementType)
      (frequency : option Frequency) (s : Session World) :
  (forall st fr w, exists w' f,
      provider_frame (Statement ticker st fr) w = (w', Return f)) ->
  exists s' f,
    get_financial_statements ticker statement_type frequency s
    = (s', Return f)
    /\ calls_made s' = calls_made s ++ statement_calls ticker
    /\ requests s' = requests s
    /\ exists w w',
         provider_frame
           (Statement ticker (or_default income statement_type)
                      (or_default quarterly frequency)) w
         = (w', Return f).
Proof.
  intros Hall.
  unfold get_financial_statements, try_except.
  unfold bind at 1. rewrite call_frame_run.
  destruct (Hall income annual (fst (world s))) as (w1 & f1 & H1).
  rewrite H1. simpl fst. simpl snd.
  unfold bind at 1. rewrite call_frame_run. simpl world. simpl fst.
  destruct (Hall income quarterly w1) as (w2 & f2 & H2).
  rewrite H2. simpl fst. simpl snd.
  unfold bind at 1. rewrite call_frame_run. simpl world. simpl fst.
  destruct (Hall balance annual w2) as (w3 & f3 & H3).
  rewrite H3. simpl fst. simpl snd.
  unfold bind at 1. rewrite call_frame_run. simpl world. simpl fst.
  destruct (Hall balance quarterly w3) as (w4 & f4 & H4).
  rewrite H4. simpl fst. simpl snd.
  unfold bind at 1. rewrite call_frame_run. simpl world. simpl fst.
  destruct (Hall cash annual w4) as (w5 & f5 & H5).
  rewrite H5. simpl fst. simpl snd.
  unfold bind at 1. rewrite call_frame_run. simpl world. simpl fst.
  destruct (Hall cash quarterly w5) as (w6 & f6 & H6).
  rewrite H6. simpl fst. simpl snd.
  do 2 eexists. split; [reflexivity|]. split; [|split].
  - unfold after_call, calls_made, statement_calls. simpl.
    now rewrite <- !app_assoc.
  - reflexivity.
  - destruct statement_type as [[]|], frequency as [[]|]; simpl; eauto.
Qed.

(** X12. The financial statements, when one of them is unavailable.  If
    the provider raises on the call for one statement of the ticker, the
    accessor returns [None] for every statement type and frequency, also
    for the statements that the provider would have answered. *)
Theorem financial_statements_one_failure (ticker : string)
      (unavailable_type : StatementType) (unavailable_frequency : Frequency)
      (statement_type : option StatementType)
      (frequency : option Frequency) (s : Session World) :
  (forall w, exists w' e,
      provider_frame (Statement ticker unavailable_type
                                unavailable_frequency) w
      = (w', Raise e)) ->
  exists s',
    get_financial_statements ticker statement_type frequency s
    = (s', Return None).
Proof.
  intros Hfail.
  unfold get_financial_statements, try_except.
  destruct unavailable_type, unavailable_frequency;
  repeat
    (unfold bind at 1; rewrite call_frame_run;
     match goal with
     | |- context [provider_frame ?ep ?w] =>
         first
           [ destruct (Hfail w) as (? & ? & Hraise); rewrite Hraise;
             eexists; reflexivity
           | destruct (provider_frame ep w) as [? [?|?]];
             [simpl fst; simpl snd; simpl world|eexists; reflexivity] ]
     end).
Qed.

(** X13. The holders, both or neither.  After the provider has answered
    the call for the institutional holders: if it raises on the call for
    the mutual-fund holders, the accessor returns [(None, None)] and the
    answer it had is lost; if it answers, the accessor returns the
    leading [top_n] rows (20 when omitted) of each frame, [None] standing
    for a missing frame.  Both calls are made, in this order. *)
Theorem holders_both_or_neither (ticker : string) (top_n : option Z)
      (s : Session World) (w1 : World) (inst : option (list Row)) :
  provider_frame (GetInstitutionalHolders ticker) (fst (world s))
  = (w1, Return inst) ->
  (forall w2 e,
      provider_frame (GetMutualfundHolders ticker) w1 = (w2, Raise e) ->
      get_institutional_holders ticker top_n s
      = (after_call (GetMutualfundHolders ticker) w2
           (after_call (GetInstitutionalHolders ticker) w1 s),
         Return (None, None)))
  /\ (forall w2 fund,
        provider_frame (GetMutualfundHolders ticker) w1 = (w2, Return fund) ->
        get_institutional_holders ticker top_n s
        = (after_call (GetMutualfundHolders ticker) w2
             (after_call (GetInstitutionalHolders ticker) w1 s),
           Return (option_map (head (or_default 20%Z top_n)) inst,
                   option_map (head (or_default 20%Z top_n)) fund))).
Proof.
  intros H1.
  split; intros w2 x H2;
    unfold get_institutional_holders, try_except;
    unfold bind at 1; rewrite call_frame_run, H1; simpl fst; simpl snd;
    unfold bind at 1; rewrite call_frame_run; simpl world; simpl fst;
    rewrite H2; reflexivity.
Qed.

End AccessorFacts.

(* ===================================================================== *)
(** ** Date texts: what the validation accepts *)
(* ===================================================================== *)

Module DateTextFacts.

Local Open Scope Z_scope.

(** A property of every integer of a range, from its instances. *)
Lemma Z_range_ind (P : Z -> Prop) (lo : Z) (n : nat) :
  Forall P (map (fun i => lo + Z.of_nat i) (seq 0 n)) ->
  forall z, lo <= z < lo + Z.of_nat n -> P z.
Proof.
  intros H z Hz. rewrite Forall_forall in H. apply H.
  apply in_map_iff. exists (Z.to_nat (z - lo)). split; [lia|].
  apply in_seq. lia.
Qed.

Lemma digit_char_digit (k : Z) :
  0 <= k <= 9 ->
  is_digit (digit_char k) = true /\ digit_value (digit_char k) = k.
Proof.
  intros Hk.
  apply (Z_range_ind
           (fun k => is_digit (digit_char k) = true
                     /\ digit_value (digit_char k) = k) 0 10);
    [|lia].
  repeat constructor.
Qed.

Lemma match_year_digits (c1 c2 c3 c4 : ascii) (rest : list ascii) :
  is_digit c1 = true -> is_digit c2 = true ->
  is_digit c3 = true -> is_digit c4 = true ->
  match_year (c1 :: c2 :: c3 :: c4 :: "-"%char :: rest)
  = Some (1000 * digit_value c1 + 100 * digit_value c2
          + 10 * digit_value c3 + digit_value c4, rest).
Proof.
  intros H1 H2 H3 H4. unfold match_year. now rewrite H1, H2, H3, H4.
Qed.

Lemma match_year_four_digits (y : Z) (rest : list ascii) :
  0 <= y <= 9999 ->
  match_year (four_digits y ++ "-"%char :: rest) = Some (y, rest).
Proof.
  intros Hy. unfold four_digits. cbn [app].
  destruct (digit_char_digit (y / 1000)) as [A1 B1];
    [Z.div_mod_to_equations; lia|].
  destruct (digit_char_digit (y / 100 mod 10)) as [A2 B2];
    [Z.div_mod_to_equations; lia|].
  destruct (digit_char_digit (y / 10 mod 10)) as [A3 B3];
    [Z.div_mod_to_equations; lia|].
  destruct (digit_char_digit (y mod 10)) as [A4 B4];
    [Z.div_mod_to_equations; lia|].
  rewrite (match_year_digits _ _ _ _ _ A1 A2 A3 A4), B1, B2, B3, B4.
  f_equal. f_equal. Z.div_mod_to_equations. lia.
Qed.

Lemma match_month_two_digits (m : Z) (rest : list ascii) :
  1 <= m <= 12 ->
  match_month (two_digits m ++ "-"%char :: rest) = Some (m, rest).
Proof.
  intros Hm. revert rest.
  apply (Z_range_ind
           (fun m => forall rest,
                match_month (two_digits m ++ "-"%char :: rest)
                = Some (m, rest)) 1 12);
    [|lia].
  repeat constructor.
Qed.

Lemma match_day_two_digits (d : Z) :
  1 <= d <= 31 -> match_day (two_digits d) = Some (d, []).
Proof.
  intros Hd.
  apply (Z_range_ind
           (fun d => match_day (two_digits d) = Some (d, [])) 1 31);
    [|lia].
  repeat constructor.
Qed.

Lemma days_in_month_bound (y m : Z) : days_in_month y m <= 31.
Proof.
  unfold days_in_month.
  destruct m as [|p|p]; try lia.
  repeat (destruct p as [p|p|]; cbn; try (destruct (is_leap y); lia)).
Qed.

Lemma isoformat_parses (d : date) :
  calendar_day d -> strptime_ymd (isoformat d) = Some d.
Proof.
  intros (Hy & Hm & Hd).
  unfold strptime_ymd, isoformat.
  rewrite list_ascii_of_string_of_list_ascii.
  rewrite match_year_four_digits by lia.
  rewrite match_month_two_digits by lia.
  pose proof (days_in_month_bound (year d) (month d)).
  rewrite match_day_two_digits by lia.
  unfold make_date.
  destruct (_ && _) eqn:E.
  - destruct d; reflexivity.
  - exfalso. rewrite !andb_false_iff, !Z.leb_gt in E. lia.
Qed.

(** X15. Canonical date texts pass the validation.  The text YYYY-MM-DD
    of a calendar day, fields padded with zeros, is accepted by the
    parser the call uses for its date arguments and for the provider's
    expirations, and is read as that very day. *)
Theorem canonical_text_round_trip (d : date) :
  calendar_day d ->
  strptime_ymd (isoformat d) = Some d
  /\ accepted (Some (isoformat d)) = true
  /\ bound_of (Some (isoformat d)) = Some d.
Proof.
  intros Hd. pose proof (isoformat_parses d Hd) as Hparse.
  split; [exact Hparse|].
  unfold accepted, bound_of.
  destruct (isoformat d) as [|c text].
  - discriminate.
  - rewrite Hparse. auto.
Qed.

(** X16. What the validation accepts is a calendar day.  A text that
    the parser accepts denotes a day of the calendar (year 1 to 9999,
    month 1 to 12, a day that the month has in that year), and the
    canonical text of that day is accepted and read as the same day. *)
Theorem accepted_text_is_calendar_day (text : string) (d : date) :
  strptime_ymd text = Some d ->
  calendar_day d /\ strptime_ymd (isoformat d) = Some d.
Proof.
  intros H. apply DateFacts.strptime_ymd_calendar in H.
  split; [exact H|]. now apply isoformat_parses.
Qed.

End DateTextFacts.

(* ===================================================================== *)
(** ** The further properties at work on the sample providers *)
(* ===================================================================== *)

Lemma no_expirations_listed_sample :
  Corner.run_filtered "NEW" (Some "2025-02-01") None None None None
                      Sample.start
  = (Corner.listed "NEW",
     Return (None, Some "No options available for NEW"))
  /\ requests (Corner.listed "NEW") = [ListExpirations "NEW"].
Proof.
  exact (no_expirations_listed nat Corner.list_expirations
           Sample.fetch_chain Sample.message
           "NEW" (Some "2025-02-01") None None None None
           Sample.start (Corner.listed "NEW") eq_refl eq_refl eq_refl).
Defined.

Lemma unparsable_expiration_aborts_sample :
  Corner.run_filtered "ODD" None (Some "2025-01-31") None None None
                      Sample.start
  = (Corner.listed "ODD",
     Return (None,
             Some "Failed to retrieve options data: time data soon does not match format %Y-%m-%d"))
  /\ requests (Corner.listed "ODD") = [ListExpirations "ODD"].
Proof.
  exact (unparsable_expiration_aborts nat Corner.list_expirations
           Sample.fetch_chain Sample.message
           "ODD" None (Some "2025-01-31") None None None
           Sample.start (Corner.listed "ODD")
           ["2025-01-17"] "soon" ["2025-03-21"]
           eq_refl eq_refl eq_refl
           ltac:(repeat constructor; discriminate) eq_refl).
Defined.


Lemma rows_within_date_range_sample :
  exists s1 expirations,
    options nat Sample.list_expirations "AAPL" Sample.start
    = (s1, Return expirations)
    /\ forall row, In row Sample.between_100_and_150 ->
         exists expiry,
           expiryDate row = Some expiry
           /\ In expiry expirations
           /\ in_date_range (Some "2025-02-01") None expiry = true.
Proof.
  exact (rows_within_date_range nat Sample.list_expirations
           Sample.fetch_chain Sample.message
           "AAPL" (Some "2025-02-01") None (Some 100%Q) (Some 150%Q) None
           Sample.start Sample.fetched Sample.between_100_and_150
           sample_between_100_and_150).
Defined.

Lemma sample_strikes_below_1000 :
  forall row,
    In row (tagged_rows
              (successes (combine Sample.february_march_results
                                  Sample.february_march))) ->
    ~ within_strike_bounds (Some 1000%Q) (Some 2000%Q) row.
Proof.
  intros row Hin [Hlo _]. specialize (Hlo _ eq_refl).
  simpl in Hin.
  repeat (destruct Hin as [<-|Hin]; [vm_compute in Hlo; apply Hlo; reflexivity|]).
  contradiction.
Defined.

Lemma empty_frame_is_not_an_error_sample :
  Sample.run_filtered "AAPL" (Some "2025-02-01") None
                      (Some 1000%Q) (Some 2000%Q) None Sample.start
  = (Sample.fetched, Return (Some [], None)).
Proof.
  exact (empty_frame_is_not_an_error nat Sample.list_expirations
           Sample.fetch_chain Sample.message
           "AAPL" (Some "2025-02-01") None (Some 1000%Q) (Some 2000%Q) None
           Sample.start Sample.listed Sample.listed Sample.fetched
           ["2025-01-17"; "2025-02-21"; "2025-03-21"]
           Sample.february_march Sample.february_march_results
           eq_refl eq_refl eq_refl eq_refl ltac:(discriminate) eq_refl
           ltac:(discriminate) sample_strikes_below_1000).
Defined.

Lemma rows_from_provider_sample :
  Forall
    (fun row =>
       exists expiry w w' answer r0,
         Sample.fetch_chain "AAPL" expiry w = (w', Return answer)
         /\ In r0 (calls answer ++ puts answer)
         /\ row = Pandas.set_expiryDate expiry r0)
    Sample.between_100_and_150.
Proof.
  apply Forall_forall.
  exact (rows_from_provider nat Sample.list_expirations
           Sample.fetch_chain Sample.message
           "AAPL" (Some "2025-02-01") None (Some 100%Q) (Some 150%Q) None
           Sample.start Sample.fetched Sample.between_100_and_150
           sample_between_100_and_150).
Defined.

Lemma wider_range_selects_more_sample :
  Forall (fun e => In e ["2025-01-17"; "2025-02-21"; "2025-03-21"])
         ["2025-02-21"].
Proof.
  apply Forall_forall.
  exact (wider_range_selects_more nat Sample.message
           (Some "2025-02-01") (Some "2025-02-28")
           (Some "2025-01-01") None
           ["2025-01-17"; "2025-02-21"; "2025-03-21"]
           ["2025-02-21"] ["2025-01-17"; "2025-02-21"; "2025-03-21"]
           Sample.start Sample.start Sample.start
           eq_refl I eq_refl eq_refl).
Defined.

Lemma head_limited_accessors_sample :
  exists kept dropped,
    get_recommendations nat SampleAccessors.Row
      SampleAccessors.provider_frame "AAPL" (Some 3%Z) SampleAccessors.start
    = (after_call (GetRecommendations "AAPL") 1%nat SampleAccessors.start,
       Return (Some kept))
    /\ SampleAccessors.grades = kept ++ dropped
    /\ List.length kept = 3%nat.
Proof.
  destruct (head_limited_accessors nat SampleAccessors.Row
              SampleAccessors.provider_frame "AAPL" (Some 3%Z)
              SampleAccessors.start 1%nat SampleAccessors.grades)
    as (Hrec & _ & _).
  exact (Hrec eq_refl).
Defined.

Lemma insert_by_date_permutes (r : SampleAccessors.Row)
      (l : list SampleAccessors.Row) :
  Permutation (SampleAccessors.insert_by_date r l) (r :: l).
Proof.
  induction l as [|x l IH]; simpl; [reflexivity|].
  destruct (_ <=? _)%Z; [reflexivity|].
  rewrite IH. apply perm_swap.
Defined.

Lemma latest_first_permutes (l : list SampleAccessors.Row) :
  Permutation (SampleAccessors.latest_first l) l.
Proof.
  induction l as [|r l IH]; simpl; [constructor|].
  rewrite insert_by_date_permutes. now constructor.
Defined.

Lemma insert_by_date_sorts (r : SampleAccessors.Row)
      (l : list SampleAccessors.Row) :
  StronglySorted
    (fun a b => (SampleAccessors.grade_date b
                 <= SampleAccessors.grade_date a)%Z) l ->
  StronglySorted
    (fun a b => (SampleAccessors.grade_date b
                 <= SampleAccessors.grade_date a)%Z)
    (SampleAccessors.insert_by_date r l).
Proof.
  induction 1 as [|x l Hl IH Hx]; simpl.
  - repeat constructor.
  - destruct (_ <=? _)%Z eqn:E.
    + apply Z.leb_le in E.
      constructor; [constructor; assumption|].
      constructor; [exact E|].
      rewrite Forall_forall in Hx |- *. intros y Hy.
      specialize (Hx y Hy). simpl in Hx. lia.
    + apply Z.leb_gt in E.
      constructor; [assumption|].
      rewrite Forall_forall in Hx |- *. intros y Hy.
      apply (Permutation_in _ (insert_by_date_permutes r l)) in Hy.
      destruct Hy as [<-|Hy]; [lia|apply Hx, Hy].
Defined.

Lemma latest_first_sorts (l : list SampleAccessors.Row) :
  StronglySorted
    (fun a b => (SampleAccessors.grade_date b
                 <= SampleAccessors.grade_date a)%Z)
    (SampleAccessors.latest_first l).
Proof.
  induction l as [|r l IH]; simpl; [constructor|].
  now apply insert_by_date_sorts.
Defined.

Lemma upgrades_downgrades_most_recent_sample :
  exists kept dropped,
    get_upgrades_downgrades nat SampleAccessors.Row
      SampleAccessors.provider_frame SampleAccessors.latest_first
      "AAPL" None SampleAccessors.start
    = (after_call (GetUpgradesDowngrades "AAPL") 1%nat
         SampleAccessors.start,
       Return (Some kept))
    /\ Permutation (kept ++ dropped) SampleAccessors.grades
    /\ List.length kept = 5%nat
    /\ StronglySorted
         (fun a b => (SampleAccessors.grade_date b
                      <= SampleAccessors.grade_date a)%Z) kept
    /\ forall a b, In a kept -> In b dropped ->
         (SampleAccessors.grade_date b <= SampleAccessors.grade_date a)%Z.
Proof.
  exact (upgrades_downgrades_most_recent nat SampleAccessors.Row
           SampleAccessors.provider_frame SampleAccessors.latest_first
           SampleAccessors.grade_date
           latest_first_permutes latest_first_sorts
           "AAPL" None SampleAccessors.start 1%nat SampleAccessors.grades
           ltac:(discriminate) eq_refl).
Defined.

Lemma financial_statements_fetches_all_sample :
  exists s' f,
    get_financial_statements nat SampleAccessors.Row
      SampleAccessors.provider_frame "AAPL" None None SampleAccessors.start
    = (s', Return f)
    /\ calls_made s'
       = calls_made SampleAccessors.start ++ statement_calls "AAPL"
    /\ requests s' = requests SampleAccessors.start
    /\ exists w w',
         SampleAccessors.provider_frame
           (Statement "AAPL" income quarterly) w
         = (w', Return f).
Proof.
  apply (financial_statements_fetches_all nat SampleAccessors.Row
           SampleAccessors.provider_frame "AAPL" None None
           SampleAccessors.start).
  intros st fr w. destruct st, fr; do 2 eexists; reflexivity.
Defined.

Lemma financial_statements_one_failure_sample :
  exists s',
    get_financial_statements nat SampleAccessors.Row
      SampleAccessors.provider_frame "MSFT" (Some income) (Some quarterly)
      SampleAccessors.start
    = (s', Return None).
Proof.
  apply (financial_statements_one_failure nat SampleAccessors.Row
           SampleAccessors.provider_frame "MSFT" cash annual
           (Some income) (Some quarterly) SampleAccessors.start).
  intros w. do 2 eexists. reflexivity.
Defined.

Lemma holders_both_or_neither_sample :
  get_institutional_holders nat SampleAccessors.Row
    SampleAccessors.provider_frame "MSFT" None SampleAccessors.start
  = (after_call (GetMutualfundHolders "MSFT") 2%nat
       (after_call (GetInstitutionalHolders "MSFT") 1%nat
          SampleAccessors.start),
     Return (None, None)).
Proof.
  destruct (holders_both_or_neither nat SampleAccessors.Row
              SampleAccessors.provider_frame "MSFT" None
              SampleAccessors.start 1%nat (Some SampleAccessors.grades)
              eq_refl)
    as [Hfail _].
  exact (Hfail 2%nat SampleAccessors.unavailable eq_refl).
Defined.

Lemma leap_day_is_a_calendar_day : calendar_day (mkDate 2024 2 29).
Proof. unfold calendar_day. simpl. lia. Defined.

Lemma canonical_text_round_trip_sample :
  strptime_ymd (isoformat (mkDate 2024 2 29)) = Some (mkDate 2024 2 29)
  /\ accepted (Some (isoformat (mkDate 2024 2 29))) = true
  /\ bound_of (Some (isoformat (mkDate 2024 2 29)))
     = Some (mkDate 2024 2 29).
Proof.
  exact (DateTextFacts.canonical_text_round_trip (mkDate 2024 2 29)
           leap_day_is_a_calendar_day).
Defined.

Lemma accepted_text_is_calendar_day_sample :
  calendar_day (mkDate 2025 2 1)
  /\ strptime_ymd (isoformat (mkDate 2025 2 1)) = Some (mkDate 2025 2 1).
Proof.
  exact (DateTextFacts.accepted_text_is_calendar_day "2025-2-1"
           (mkDate 2025 2 1) eq_refl).
Defined.

(* ===================================================================== *)
(** ** How the strike filter and the sort compose *)
(* ===================================================================== *)

Module SortFacts.
Import Pandas PandasFacts.

Section Keys.
Variable keys : list ((OptionRow -> cell) * bool).

(** A row that may precede all rows of a list goes to its front. *)
Lemma insert_front (r : OptionRow) (l : DataFrame) :
  Forall (before keys r) l -> insert keys r l = r :: l.
Proof.
  intros H. destruct l as [|x l]; [reflexivity|].
  simpl. apply Forall_inv in H. unfold before in H. now rewrite H.
Qed.

Lemma sort_values_of_sorted (l : DataFrame) :
  StronglySorted (before keys) l -> sort_values keys l = l.
Proof.
  induction 1 as [|x l Hl IH Hx]; simpl; [reflexivity|].
  rewrite IH. now apply insert_front.
Qed.

Lemma filter_insert (p : OptionRow -> bool) (r : OptionRow)
      (l : DataFrame) :
  StronglySorted (before keys) l ->
  filter p (insert keys r l)
  = if p r then insert keys r (filter p l) else filter p l.
Proof.
  induction 1 as [|x l Hl IH Hx]; simpl.
  - destruct (p r); reflexivity.
  - destruct (row_leb keys r x) eqn:E.
    + simpl. destruct (p r); [|reflexivity].
      symmetry.
      change (insert keys r (filter p (x :: l)) = r :: filter p (x :: l)).
      apply insert_front. rewrite Forall_forall. intros y Hy.
      apply filter_In in Hy. destruct Hy as [[<-|Hy] _]; [exact E|].
      rewrite Forall_forall in Hx.
      eapply row_leb_trans; [exact E|apply Hx, Hy].
    + simpl. rewrite IH.
      destruct (p x), (p r); simpl; try reflexivity.
      now rewrite E.
Qed.

Lemma filter_sort_values (p : OptionRow -> bool) (l : DataFrame) :
  filter p (sort_values keys l) = sort_values keys (filter p l).
Proof.
  induction l as [|r l IH]; simpl; [reflexivity|].
  rewrite filter_insert by apply sort_values_sorted.
  rewrite IH. destruct (p r); reflexivity.
Qed.

End Keys.

(** X17. Filtering after sorting.  The frame returned for strike bounds
    is the frame returned without bounds, with the rows outside the
    bounds taken out and the order of the others kept: the bounds never
    change the relative order of two rows. *)
Theorem strike_filter_commutes_with_sort (lo hi : option Q)
      (df : DataFrame) :
  filter_and_sort lo hi df
  = filter (within_strike_boundsb lo hi) (filter_and_sort None None df).
Proof.
  unfold filter_and_sort.
  rewrite !FilterFacts.apply_strike_filters_filter.
  rewrite filter_sort_values. f_equal.
  unfold within_strike_boundsb at 2. simpl.
  now rewrite FilterFacts.filter_all.
Qed.

(** X18. Filtering and sorting twice.  To filter and sort a frame that
    has been filtered and sorted with the same bounds changes nothing,
    and to sort a returned frame again leaves every row in its place. *)
Theorem filter_and_sort_idempotent (lo hi : option Q) (df : DataFrame) :
  filter_and_sort lo hi (filter_and_sort lo hi df) = filter_and_sort lo hi df
  /\ sort_values by_openInterest_volume (filter_and_sort lo hi df)
     = filter_and_sort lo hi df.
Proof.
  assert (Hsorted : sort_values by_openInterest_volume
                      (filter_and_sort lo hi df)
                    = filter_and_sort lo hi df).
  { apply sort_values_of_sorted. unfold filter_and_sort.
    apply sort_values_sorted. }
  split; [|exact Hsorted].
  unfold filter_and_sort at 1.
  rewrite FilterFacts.apply_strike_filters_filter.
  rewrite <- filter_sort_values, Hsorted.
  unfold filter_and_sort.
  rewrite FilterFacts.apply_strike_filters_filter.
  rewrite filter_sort_values. f_equal. clear Hsorted.
  induction df as [|r df IH]; simpl; [reflexivity|].
  destruct (within_strike_boundsb lo hi r) eqn:E; simpl;
    rewrite ?E, IH; reflexivity.
Qed.

End SortFacts.

(* ===================================================================== *)
(** ** Exceptions that are caught and exceptions that are not *)
(* ===================================================================== *)

Section InterruptibleFacts.

Variable World : Type.
Variable strptime_message : string -> string.

Local Abbreviation lift := (Interruptible.lift World).

Lemma bind_lift {A B : Type} (m' : Interruptible.M World A) (m : M World A)
      (k' : A -> Interruptible.M World B) (k : A -> M World B) :
  (forall s, m' s = lift m s) ->
  (forall a s, k' a s = lift (k a) s) ->
  forall s, Interruptible.bind World m' k' s = lift (bind m k) s.
Proof.
  intros Hm Hk s. unfold Interruptible.bind, bind, Interruptible.lift.
  rewrite Hm. unfold Interruptible.lift.
  destruct (m s) as [s' [a|e]]; [|reflexivity].
  rewrite Hk. reflexivity.
Qed.

Lemma try_except_lift {A : Type} (m' : Interruptible.M World A)
      (m : M World A) (h' : exn -> Interruptible.M World A)
      (h : exn -> M World A) :
  (forall s, m' s = lift m s) ->
  (forall e s, h' e s = lift (h e) s) ->
  forall s, Interruptible.try_except World m' h' s = lift (try_except m h) s.
Proof.
  intros Hm Hh s.
  unfold Interruptible.try_except, try_except, Interruptible.lift.
  rewrite Hm. unfold Interruptible.lift.
  destruct (m s) as [s' [a|e]]; [reflexivity|].
  rewrite Hh. reflexivity.
Qed.

Lemma validate_date_lift (d : option string) (message : string)
      (k' : Interruptible.M World result) (k : M World result) :
  (forall s, k' s = lift k s) ->
  forall s,
    Interruptible.validate_date World strptime_message d message k' s
    = lift (validate_date World strptime_message d message k) s.
Proof.
  intros Hk s. destruct d as [[|c text]|]; simpl; try apply Hk.
  unfold Interruptible.try_except_ValueError_return,
    try_except_ValueError_return, Interruptible.lift.
  rewrite strptime_date_run.
  destruct (strptime_ymd (String c text)); [|reflexivity].
  rewrite Hk. reflexivity.
Qed.

Lemma executor_map_lift {A B : Type} (f' : A -> Interruptible.M World B)
      (f : A -> M World B) :
  (forall x s, f' x s = lift (f x) s) ->
  forall items s,
    Interruptible.executor_map World f' items s
    = lift (executor_map f items) s.
Proof.
  intros Hf. induction items as [|x items IH]; intros s; simpl.
  - reflexivity.
  - apply bind_lift; [apply Hf|]. intros y s0.
    apply bind_lift; [apply IH|]. intros ys s1. reflexivity.
Qed.

Section Agreement.

(** A provider of the interruptible embedding that answers as a
    provider of the first embedding does. *)
Variable provider_options :
  string -> World -> World * outcome (list string).
Variable provider_option_chain :
  string -> string -> World -> World * outcome Options.
Variable interruptible_options :
  string -> World -> World * completion (list string).
Variable interruptible_option_chain :
  string -> string -> World -> World * completion Options.

Hypothesis options_agree :
  forall ticker w,
    interruptible_options ticker w
    = (fst (provider_options ticker w),
       Completes (snd (provider_options ticker w))).
Hypothesis option_chain_agree :
  forall ticker expiry w,
    interruptible_option_chain ticker expiry w
    = (fst (provider_option_chain ticker expiry w),
       Completes (snd (provider_option_chain ticker expiry w))).

Lemma get_options_chain_lift (ticker : string) (expiry : option string)
      (option_type : option OptionType) (s : state World) :
  Interruptible.get_options_chain World interruptible_option_chain
    ticker expiry option_type s
  = lift (get_options_chain World provider_option_chain
            ticker expiry option_type) s.
Proof.
  destruct expiry as [[|c text]|]; try reflexivity.
  unfold Interruptible.get_options_chain, get_options_chain.
  apply try_except_lift; [|reflexivity].
  intros s0. apply bind_lift.
  - intros s1. unfold Interruptible.option_chain, option_chain,
      Interruptible.lift.
    rewrite option_chain_agree.
    destruct (provider_option_chain ticker (String c text) (world s1)).
    reflexivity.
  - intros chain s1. destruct option_type as [[|]|]; reflexivity.
Qed.

(** On a provider that raises nothing but exceptions below [Exception],
    the two embeddings of the call agree. *)
Lemma get_filtered_options_lift (ticker : string)
      (start_date end_date : option string) (lo hi : option Q)
      (option_type : option OptionType) (s : state World) :
  Interruptible.get_filtered_options World interruptible_options
    interruptible_option_chain strptime_message
    ticker start_date end_date lo hi option_type s
  = lift (get_filtered_options World provider_options provider_option_chain
            strptime_message ticker start_date end_date lo hi option_type) s.
Proof.
  unfold Interruptible.get_filtered_options, get_filtered_options.
  apply try_except_lift; [|reflexivity].
  intros s0. apply validate_date_lift.
  intros s1. apply validate_date_lift.
  intros s2. apply bind_lift.
  - intros s3. unfold Interruptible.options, options, Interruptible.lift.
    rewrite options_agree.
    destruct (provider_options ticker (world s3)). reflexivity.
  - intros [|e0 exps] s3; [reflexivity|].
    apply bind_lift; [reflexivity|]. intros start_date_obj s4.
    apply bind_lift; [reflexivity|]. intros end_date_obj s5.
    apply bind_lift; [reflexivity|]. intros [|v0 valid] s6; [reflexivity|].
    apply bind_lift; [|reflexivity].
    apply executor_map_lift. intros exp s7. apply get_options_chain_lift.
Qed.

End Agreement.

Variable provider_options :
  string -> World -> World * completion (list string).
Variable provider_option_chain :
  string -> string -> World -> World * completion Options.

Local Abbreviation get_options_chain_i :=
  (Interruptible.get_options_chain World provider_option_chain).
Local Abbreviation get_filtered_options_i :=
  (Interruptible.get_filtered_options World provider_options
     provider_option_chain strptime_message).

Lemma validate_date_interruptible_run (d : option string) (message : string)
      (k : Interruptible.M World result) (s : state World) :
  Interruptible.validate_date World strptime_message d message k s
  = if accepted d then k s
    else (s, Completes (Return (None, Some message))).
Proof.
  destruct d as [[|c text]|]; simpl; try reflexivity.
  unfold Interruptible.try_except_ValueError_return, Interruptible.lift.
  rewrite strptime_date_run.
  destruct (strptime_ymd (String c text)); reflexivity.
Qed.

Lemma get_options_chain_interruptible_run (ticker : string) (c : ascii)
      (text : string) (option_type : option OptionType) (s : state World) :
  get_options_chain_i ticker (Some (String c text)) option_type s
  = (mkState
       (fst (provider_option_chain ticker (String c text) (world s)))
       (requests s ++ [FetchChain ticker (String c text)]),
     match snd (provider_option_chain ticker (String c text) (world s)) with
     | Completes (Return chain) =>
         Completes (Return (Some (side option_type chain), None))
     | Completes (Raise e) => Completes (Return (None, Some (str e)))
     | Propagates b => Propagates b
     end).
Proof.
  unfold Interruptible.get_options_chain, Interruptible.try_except,
    Interruptible.bind, Interruptible.option_chain.
  destruct (provider_option_chain ticker (String c text) (world s))
    as [w [[chain|e]|b]]; simpl; try reflexivity.
  destruct option_type as [[|]|]; simpl; try reflexivity.
  now rewrite app_nil_r.
Qed.

(** The call up to the first fetch, when the listing is answered and
    the selection is not empty. *)
Lemma get_filtered_options_first_fetch (ticker : string)
      (start_date end_date : option string) (lo hi : option Q)
      (option_type : option OptionType) (s s1 : state World)
      (expirations : list string) (first : string) (others : list string) :
  accepted start_date = true -> accepted end_date = true ->
  Interruptible.options World provider_options ticker s
  = (s1, Completes (Return expirations)) ->
  select_expirations World strptime_message
    (bound_of start_date) (bound_of end_date) expirations [] s1
  = (s1, Return (first :: others)) ->
  forall w b,
    provider_option_chain ticker first (world s1) = (w, Propagates b) ->
    get_filtered_options_i ticker start_date end_date lo hi option_type s
    = (mkState w (requests s1 ++ [FetchChain ticker first]), Propagates b).
Proof.
  intros Hs He Hopt Hsel w b Hp.
  assert (Hfirst : exists c text, first = String c text).
  { pose proof (select_expirations_returned _ _ _ _ _ _ _ _ _ Hsel)
      as [Hvalid Hall].
    assert (Hin : In first (filter (in_date_range start_date end_date)
                                   expirations)).
    { rewrite app_nil_l in Hvalid. rewrite <- Hvalid. now left. }
    apply filter_In in Hin. destruct Hin as [Hin _].
    rewrite Forall_forall in Hall. specialize (Hall _ Hin).
    destruct first as [|c text]; [now contradiction Hall|eauto]. }
  destruct Hfirst as (c & text & ->).
  unfold Interruptible.get_filtered_options, Interruptible.try_except.
  rewrite !validate_date_interruptible_run, Hs, He.
  unfold Interruptible.bind at 1. rewrite Hopt.
  destruct expirations as [|e0 exps].
  { simpl in Hsel. discriminate. }
  unfold Interruptible.bind at 1. unfold Interruptible.lift at 1.
  rewrite (to_date_obj_run _ _ _ _ Hs).
  unfold Interruptible.bind at 1. unfold Interruptible.lift at 1.
  rewrite (to_date_obj_run _ _ _ _ He).
  unfold Interruptible.bind at 1. unfold Interruptible.lift at 1.
  rewrite Hsel.
  unfold Interruptible.bind at 1. simpl Interruptible.executor_map.
  unfold Interruptible.bind at 1.
  rewrite get_options_chain_interruptible_run, Hp. reflexivity.
Qed.

(** C6, as the code has it.  The handlers of the two functions are
    [except Exception].  (1) With a provider that raises nothing but
    exceptions below [Exception], each of the two functions returns a
    pair for every input, a frame without a message or a message without
    a frame; it never raises.  (2) Such an exception of the provider
    comes back as its text: from [get_options_chain] as [str(e)], and
    from the listing request of [get_filtered_options] behind "Failed to
    retrieve options data: ".  (3) An exception that is not below
    [Exception] ([KeyboardInterrupt], [SystemExit]) is not caught: raised
    by the chain request it leaves [get_options_chain], and raised by
    the listing request or by the first chain request it leaves
    [get_filtered_options], without a returned pair. *)
Theorem exceptions_become_values :
  ((forall ticker, Interruptible.never_propagates (provider_options ticker)) ->
   (forall ticker expiry,
       Interruptible.never_propagates (provider_option_chain ticker expiry)) ->
   (forall ticker expiry option_type s,
       exists s' r,
         get_options_chain_i ticker expiry option_type s
         = (s', Completes (Return r))
         /\ well_formed r)
   /\ (forall ticker start_date end_date lo hi option_type s,
         exists s' r,
           get_filtered_options_i ticker start_date end_date lo hi
                                  option_type s
           = (s', Completes (Return r))
           /\ well_formed r))
  /\ (forall ticker expiry option_type s w e,
        truthy (Some expiry) = true ->
        provider_option_chain ticker expiry (world s)
        = (w, Completes (Raise e)) ->
        get_options_chain_i ticker (Some expiry) option_type s
        = (mkState w (requests s ++ [FetchChain ticker expiry]),
           Completes (Return (None, Some (str e)))))
  /\ (forall ticker start_date end_date lo hi option_type s w e,
        accepted start_date = true -> accepted end_date = true ->
        provider_options ticker (world s) = (w, Completes (Raise e)) ->
        get_filtered_options_i ticker start_date end_date lo hi option_type s
        = (mkState w (requests s ++ [ListExpirations ticker]),
           Completes (Return (None, Some ("Failed to retrieve options data: "
                                            ++ str e)%string))))
  /\ (forall ticker expiry option_type s w b,
        truthy (Some expiry) = true ->
        provider_option_chain ticker expiry (world s) = (w, Propagates b) ->
        get_options_chain_i ticker (Some expiry) option_type s
        = (mkState w (requests s ++ [FetchChain ticker expiry]),
           Propagates b))
  /\ (forall ticker start_date end_date lo hi option_type s w b,
        accepted start_date = true -> accepted end_date = true ->
        provider_options ticker (world s) = (w, Propagates b) ->
        get_filtered_options_i ticker start_date end_date lo hi option_type s
        = (mkState w (requests s ++ [ListExpirations ticker]),
           Propagates b))
  /\ (forall ticker start_date end_date lo hi option_type s s1
             expirations first others w b,
        accepted start_date = true -> accepted end_date = true ->
        Interruptible.options World provider_options ticker s
        = (s1, Completes (Return expirations)) ->
        select_expirations World strptime_message
          (bound_of start_date) (bound_of end_date) expirations [] s1
        = (s1, Return (first :: others)) ->
        provider_option_chain ticker first (world s1) = (w, Propagates b) ->
        get_filtered_options_i ticker start_date end_date lo hi option_type s
        = (mkState w (requests s1 ++ [FetchChain ticker first]),
           Propagates b)).
Proof.
  split; [|split; [|split; [|split; [|split]]]].
  - intros Hlist Hchain.
    set (p_options := fun ticker w =>
           let (w', c) := provider_options ticker w in
           (w', Interruptible.unexceptional c)).
    set (p_chain := fun ticker expiry w =>
           let (w', c) := provider_option_chain ticker expiry w in
           (w', Interruptible.unexceptional c)).
    assert (Ho : forall ticker w,
               provider_options ticker w
               = (fst (p_options ticker w),
                  Completes (snd (p_options ticker w)))).
    { intros ticker w. unfold p_options.
      destruct (Hlist ticker w) as (w' & o & ->). reflexivity. }
    assert (Hc : forall ticker expiry w,
               provider_option_chain ticker expiry w
               = (fst (p_chain ticker expiry w),
                  Completes (snd (p_chain ticker expiry w)))).
    { intros ticker expiry w. unfold p_chain.
      destruct (Hchain ticker expiry w) as (w' & o & ->). reflexivity. }
    split.
    + intros ticker expiry option_type s.
      rewrite (get_options_chain_lift p_chain provider_option_chain Hc).
      unfold Interruptible.lift.
      destruct (get_options_chain_returns World p_chain ticker expiry
                  option_type s) as (s' & r & -> & Hwf).
      eauto.
    + intros ticker start_date end_date lo hi option_type s.
      rewrite (get_filtered_options_lift p_options p_chain
                 provider_options provider_option_chain Ho Hc).
      unfold Interruptible.lift.
      destruct (get_filtered_options_returns World p_options p_chain
                  strptime_message ticker start_date end_date lo hi
                  option_type s) as (s' & r & -> & Hwf).
      eauto.
  - intros ticker expiry option_type s w e Ht Hp.
    destruct expiry as [|c text]; [discriminate|].
    rewrite get_options_chain_interruptible_run, Hp. reflexivity.
  - intros ticker start_date end_date lo hi option_type s w e Hs He Hp.
    unfold Interruptible.get_filtered_options, Interruptible.try_except.
    rewrite !validate_date_interruptible_run, Hs, He.
    unfold Interruptible.bind at 1. unfold Interruptible.options.
    rewrite Hp. reflexivity.
  - intros ticker expiry option_type s w b Ht Hp.
    destruct expiry as [|c text]; [discriminate|].
    rewrite get_options_chain_interruptible_run, Hp. reflexivity.
  - intros ticker start_date end_date lo hi option_type s w b Hs He Hp.
    unfold Interruptible.get_filtered_options, Interruptible.try_except.
    rewrite !validate_date_interruptible_run, Hs, He.
    unfold Interruptible.bind at 1. unfold Interruptible.options.
    rewrite Hp. reflexivity.
  - intros. eapply get_filtered_options_first_fetch; eassumption.
Qed.

End InterruptibleFacts.

(** On the sample provider, which raises nothing but exceptions below
    [Exception], the calls return. *)
Lemma exceptions_become_values_sample :
  (forall ticker expiry option_type s,
      exists s' r,
        Interruptible.get_options_chain nat Interruptible.sample_fetch_chain
          ticker expiry option_type s
        = (s', Completes (Return r))
        /\ well_formed r)
  /\ (forall ticker start_date end_date lo hi option_type s,
        exists s' r,
          Interruptible.get_filtered_options nat
            Interruptible.sample_list_expirations
            Interruptible.sample_fetch_chain Sample.message
            ticker start_date end_date lo hi option_type s
          = (s', Completes (Return r))
          /\ well_formed r).
Proof.
  destruct (exceptions_become_values nat Sample.message
              Interruptible.sample_list_expirations
              Interruptible.sample_fetch_chain) as [Hreturns _].
  apply Hreturns.
  - intros ticker w. do 2 eexists. reflexivity.
  - intros ticker expiry w. do 2 eexists. reflexivity.
Defined.

(** C6, as the claim has it, fails: when the chain request is
    interrupted from the keyboard, [get_options_chain] does not return a
    pair; the [KeyboardInterrupt] reaches the caller. *)
Lemma keyboard_interrupt_gets_through :
  ~ Interruptible.nothing_gets_through nat
      Interruptible.sample_list_expirations
      Interruptible.interrupted_fetch_chain Sample.message.
Proof.
  intros [Hchain _].
  destruct (Hchain "AAPL" (Some "2025-01-17") None Sample.start)
    as (s' & r & Hrun).
  vm_compute in Hrun. discriminate Hrun.
Qed.
